(** * Typing-test backend: a shallow embedding of [main.py]

    The service is a FastAPI application with three functional routes
    ([GET /test], [POST /api/results], [GET /api/results]) on top of a
    document database.  The handlers are embedded as functions in a
    state-and-exception monad over an explicit [world]: the module-level
    database handle [db], the process environment read by [os.getenv] and
    the clock read by [datetime.now].

    Python values are dynamically typed; a stored document is a [dict] from
    field names to values, modelled as a [gmap string value].  The built-in
    coercions [float(...)] and [int(...)] are written out case by case,
    with the exceptions they raise. *)

From Stdlib Require Import ZArith String List Sorted Lia.
From Stdlib Require Import Floats.SpecFloat DecimalString.
From stdpp Require Import base option gmap strings list pretty.

Local Open Scope string_scope.
Local Open Scope Z_scope.
Local Open Scope list_scope.

(** ** Python values *)

(** A [datetime]: the instant it denotes (microseconds since the epoch) and
    whether it carries a [tzinfo].  [datetime.now(timezone.utc)] is aware;
    ordering an aware against a naive datetime raises [TypeError]. *)
Record datetime := { instant : Z; tz_aware : bool }.

(** Floats are IEEE binary64 values, as [spec_float] of the standard
    library ([prec = 53], [emax = 1024]). *)
Inductive value :=
| VNone
| VBool (b : bool)
| VInt (z : Z)
| VFloat (f : spec_float)
| VStr (s : string)
| VDatetime (t : datetime)
| VObjectId (hex : string).

#[global] Instance datetime_eq_dec : EqDecision datetime.
Proof. solve_decision. Defined.
#[global] Instance spec_float_eq_dec : EqDecision spec_float.
Proof. solve_decision. Defined.
#[global] Instance value_eq_dec : EqDecision value.
Proof. solve_decision. Defined.

(** A document / JSON object / Python [dict] with string keys. *)
Abbreviation document := (gmap string value).

(** ** Exceptions *)

(** The failures of the built-in operations the handlers call. *)
Inductive builtin_error :=
| FloatArgument (v : value)      (* TypeError: float() argument must be a string or a real number *)
| FloatLiteral (s : string)      (* ValueError: could not convert string to float *)
| FloatOverflow (z : Z)          (* OverflowError: int too large to convert to float *)
| IntArgument (v : value)        (* TypeError: int() argument must be a string ... or a real number *)
| IntLiteral (s : string)        (* ValueError: invalid literal for int() with base 10 *)
| IntOfNaN                       (* ValueError: cannot convert float NaN to integer *)
| IntOfInfinity                  (* OverflowError: cannot convert float infinity to integer *)
| DatetimeCompare                (* TypeError: can't compare offset-naive and offset-aware datetimes *)
| FieldValidation (field : string) (v : value). (* pydantic ValidationError on a model field *)

Inductive exn :=
| HTTPException (status_code : Z) (detail : string)
| AdapterError (msg : string)    (* raised by the persistence adapter / database driver *)
| BuiltinError (e : builtin_error).

Inductive result (A : Type) :=
| Ret (a : A)
| Raise (e : exn).
Arguments Ret {A} a.
Arguments Raise {A} e.

Definition is_ret {A} (r : result A) : bool :=
  match r with Ret _ => true | Raise _ => false end.

#[global] Instance result_ret : MRet result := λ A a, Ret a.
#[global] Instance result_bind : MBind result := λ A B f r,
  match r with
  | Ret a => f a
  | Raise e => Raise e
  end.

(** ** The runtime's text handling

    Parsing of numeric and date text, and the message text of the built-in
    exceptions, are the interpreter's and pydantic's; the handlers only
    pass them through, so they are taken as an interface. *)
Class Runtime := {
  (* float(s) on a str: the parsed number, or None when s is no float literal *)
  float_of_str : string → option spec_float;
  (* int(s) on a str *)
  int_of_str : string → option Z;
  (* pydantic's lax conversion to datetime of a value that is no datetime *)
  datetime_of_value : value → option datetime;
  (* str(e) of a built-in exception *)
  describe : builtin_error → string
}.

Section Coercions.
Context {rt : Runtime}.

(** [str(e)].  Starlette renders an [HTTPException] as "status: detail". *)
Definition str (e : exn) : string :=
  match e with
  | HTTPException status_code detail =>
      pretty status_code +:+ ": " +:+ detail
  | AdapterError msg => msg
  | BuiltinError b => describe b
  end.

(** ** Built-in coercions *)

Definition float_of_int (z : Z) : result spec_float :=
  match binary_normalize 53 1024 z 0 false with
  | S754_infinity _ => Raise (BuiltinError (FloatOverflow z))
  | f => Ret f
  end.

(** [float(v)] *)
Definition builtin_float (v : value) : result spec_float :=
  match v with
  | VFloat f => Ret f
  | VInt z => float_of_int z
  | VBool b => float_of_int (if b then 1 else 0)
  | VStr s =>
      match float_of_str s with
      | Some f => Ret f
      | None => Raise (BuiltinError (FloatLiteral s))
      end
  | _ => Raise (BuiltinError (FloatArgument v))
  end.

(** Truncation of a finite float towards zero. *)
Definition float_trunc (s : bool) (m : positive) (e : Z) : Z :=
  let magnitude := if 0 <=? e then Z.shiftl (Z.pos m) e else Z.shiftr (Z.pos m) (- e) in
  if s then - magnitude else magnitude.

(** [int(v)] *)
Definition builtin_int (v : value) : result Z :=
  match v with
  | VInt z => Ret z
  | VBool b => Ret (if b then 1 else 0)
  | VFloat (S754_zero _) => Ret 0
  | VFloat (S754_finite s m e) => Ret (float_trunc s m e)
  | VFloat (S754_infinity _) => Raise (BuiltinError IntOfInfinity)
  | VFloat S754_nan => Raise (BuiltinError IntOfNaN)
  | VStr s =>
      match int_of_str s with
      | Some z => Ret z
      | None => Raise (BuiltinError (IntLiteral s))
      end
  | _ => Raise (BuiltinError (IntArgument v))
  end.

(** Validation of a [datetime] model field by pydantic: a datetime is taken
    as it is, naive or aware; anything else goes through the lax
    conversion. *)
Definition validate_datetime (field : string) (v : value) : result datetime :=
  match v with
  | VDatetime t => Ret t
  | _ =>
      match datetime_of_value v with
      | Some t => Ret t
      | None => Raise (BuiltinError (FieldValidation field v))
      end
  end.

(** [a < b] on datetimes. *)
Definition datetime_lt (a b : datetime) : result bool :=
  if Bool.eqb (tz_aware a) (tz_aware b)
  then Ret (instant a <? instant b)
  else Raise (BuiltinError DatetimeCompare).

End Coercions.

(** ** The world the handlers run in *)

(** What an attribute access on the handle does: [hasattr] answers [False]
    on a missing attribute and lets any other exception through. *)
Inductive attribute :=
| AttrMissing
| AttrValue (s : string)
| AttrRaises (e : exn).

(** The database behind the handle [db].  [name_attr] and
    [collection_names] are what [db.name] and [db.list_collection_names()]
    answer; [connection_fault] is set when the connection is lost;
    [write_rejection] tells which documents the database refuses, and why;
    [collections] holds the documents of each collection in insertion
    order; [next_id] numbers the identifiers handed out so far. *)
Record database := {
  name_attr : attribute;
  collection_names : result (list string);
  connection_fault : option string;
  write_rejection : document → option string;
  collections : gmap string (list document);
  next_id : nat
}.

Record world := {
  db : option database;                (* [from database import db]; None when unconfigured *)
  environ : gmap string string;        (* os.environ *)
  clock : nat → Z;                     (* the n-th reading of the system clock *)
  ticks : nat                          (* readings taken so far *)
}.

Definition set_db (d : option database) (w : world) : world :=
  {| db := d; environ := environ w; clock := clock w; ticks := ticks w |}.

Definition set_ticks (n : nat) (w : world) : world :=
  {| db := db w; environ := environ w; clock := clock w; ticks := n |}.

(** The documents of a collection ([[]] when the collection does not exist). *)
Definition documents_of (coll : string) (h : database) : list document :=
  default [] (collections h !! coll).

(** The stored typing results of a world. *)
Definition stored (w : world) : list document :=
  match db w with
  | Some h => documents_of "typingresult" h
  | None => []
  end.

(** ** The handler monad: state over [world], with exceptions.
    A raised exception keeps the state changes made before it. *)
Definition M (A : Type) : Type := world → result A * world.

#[global] Instance M_ret : MRet M := λ A a w, (Ret a, w).
#[global] Instance M_bind : MBind M := λ A B f m w,
  match m w with
  | (Ret a, w') => f a w'
  | (Raise e, w') => (Raise e, w')
  end.

Definition raise {A} (e : exn) : M A := λ w, (Raise e, w).

(** A pure computation that may raise, run inside a handler. *)
Definition lift {A} (r : result A) : M A := λ w, (r, w).

(** [try: body / except Exception as e: handler e] *)
Definition try_except {A} (body : M A) (handler : exn → M A) : M A := λ w,
  match body w with
  | (Ret a, w') => (Ret a, w')
  | (Raise e, w') => handler e w'
  end.

Definition get_db : M (option database) := λ w, (Ret (db w), w).

(** [os.getenv(name)] *)
Definition getenv (name : string) : M (option string) := λ w, (Ret (environ w !! name), w).

(** [datetime.now(timezone.utc)]: an aware datetime at the next clock reading. *)
Definition datetime_now_utc : M datetime := λ w,
  (Ret {| instant := clock w (ticks w); tz_aware := true |}, set_ticks (S (ticks w)) w).

(** Truth value of [os.getenv(...)]: [None] and the empty string are false. *)
Definition truthy (v : option string) : bool :=
  match v with
  | Some s => negb (String.eqb s "")
  | None => false
  end.

(** ** Persistence adapter ([database.py]) *)

(** Modelled from the spec: the identifier the database assigns to a new
    document.  [database.py] is not among the sources; the spec says the
    identifier is an opaque string, unique per stored record.  It is
    modelled as the rendering of a per-database counter. *)
Definition render_id (n : nat) : string := "oid" +:+ pretty n.

(** Modelled from the spec: whether a document matches a query filter (every
    field of the filter is in the document with the same value; the empty
    filter matches everything). *)
Definition matches (filter_dict d : document) : bool :=
  bool_decide (map_Forall (λ k v, d !! k = Some v) filter_dict).

Definition add_document (coll : string) (doc : document) (h : database) : database :=
  {| name_attr := name_attr h;
     collection_names := collection_names h;
     connection_fault := connection_fault h;
     write_rejection := write_rejection h;
     collections := <[coll := documents_of coll h ++ [doc]]> (collections h);
     next_id := S (next_id h) |}.

(** Modelled from the spec: [create_document] of [database.py], which is not
    among the sources.  Section 4.1: "insert(collectionName, document)
    returns a string identifier.  Side effect: one document durably added
    to the named collection.  Fails with a StorageError if the underlying
    connection is unavailable or the write is rejected"; a disabled adapter
    fails fast with a "storage not configured" condition.  The stored
    document carries its identifier under [_id]. *)
Definition create_document (collection_name : string) (data : document) : M string := λ w,
  match db w with
  | None => (Raise (AdapterError "storage not configured"), w)
  | Some h =>
      match connection_fault h with
      | Some msg => (Raise (AdapterError msg), w)
      | None =>
          match write_rejection h data with
          | Some msg => (Raise (AdapterError msg), w)
          | None =>
              let inserted_id := render_id (next_id h) in
              let doc := <["_id" := VObjectId inserted_id]> data in
              (Ret inserted_id, set_db (Some (add_document collection_name doc h)) w)
          end
      end
  end.

(** Modelled from the spec: [get_documents] of [database.py], which is not
    among the sources.  Section 4.1: "query(collectionName, filter, limit)
    returns a finite, non-lazy sequence of documents matching filter,
    truncated to at most limit entries, in implementation-defined
    (typically insertion) order.  Fails with StorageError on connection
    loss." *)
Definition get_documents (collection_name : string) (filter_dict : document) (limit : Z)
  : M (list document) := λ w,
  match db w with
  | None => (Raise (AdapterError "storage not configured"), w)
  | Some h =>
      match connection_fault h with
      | Some msg => (Raise (AdapterError msg), w)
      | None =>
          (Ret (take (Z.to_nat limit) (filter (λ d, matches filter_dict d) (documents_of collection_name h))), w)
      end
  end.

(** ** API models *)

(** Modelled from the spec: the fields of [TypingResult], whose declaration
    ([schemas.py]) is not among the sources.  Section 3: [wpm] and
    [accuracy] are floats, [mistakes] and [duration] integers.
    [class SaveResultRequest(TypingResult)] adds
    [user_id: Optional[str] = None]. *)
Module SaveResultRequest.
Record t := {
  wpm : spec_float;
  accuracy : spec_float;
  mistakes : Z;
  duration : Z;
  user_id : option string
}.

(** [payload.model_dump()]: a dict of the declared fields. *)
Definition model_dump (p : t) : document :=
  <["user_id" := from_option VStr VNone (user_id p)]>
  (<["duration" := VInt (duration p)]>
  (<["mistakes" := VInt (mistakes p)]>
  (<["accuracy" := VFloat (accuracy p)]>
  (<["wpm" := VFloat (wpm p)]> ∅)))).
End SaveResultRequest.

Module SaveResultResponse.
Record t := { id : string; status : string }.
End SaveResultResponse.

Module ResultRecord.
Record t := {
  wpm : spec_float;
  accuracy : spec_float;
  mistakes : Z;
  duration : Z;
  created_at : datetime
}.

(** The JSON object the response model serialises a record to: its
    declared fields and nothing else. *)
Definition model_dump (r : t) : document :=
  <["created_at" := VDatetime (created_at r)]>
  (<["duration" := VInt (duration r)]>
  (<["mistakes" := VInt (mistakes r)]>
  (<["accuracy" := VFloat (accuracy r)]>
  (<["wpm" := VFloat (wpm r)]> ∅)))).
End ResultRecord.

(** The [response] dict of [test_database]. *)
Module Diagnostics.
Record t := {
  backend : string;
  database : string;
  database_url : option string;
  database_name : option string;
  connection_status : string;
  collections : list string
}.

Definition set_database (s : string) (r : t) : t :=
  {| backend := backend r; database := s; database_url := database_url r;
     database_name := database_name r; connection_status := connection_status r;
     collections := collections r |}.
Definition set_database_url (s : option string) (r : t) : t :=
  {| backend := backend r; database := database r; database_url := s;
     database_name := database_name r; connection_status := connection_status r;
     collections := collections r |}.
Definition set_database_name (s : option string) (r : t) : t :=
  {| backend := backend r; database := database r; database_url := database_url r;
     database_name := s; connection_status := connection_status r;
     collections := collections r |}.
Definition set_connection_status (s : string) (r : t) : t :=
  {| backend := backend r; database := database r; database_url := database_url r;
     database_name := database_name r; connection_status := s;
     collections := collections r |}.
Definition set_collections (l : list string) (r : t) : t :=
  {| backend := backend r; database := database r; database_url := database_url r;
     database_name := database_name r; connection_status := connection_status r;
     collections := l |}.
End Diagnostics.

(** ** HTTP responses *)

(** One problem pydantic reports for a request field. *)
Inductive field_problem :=
| FieldMissing
| FieldNotCoercible (v : value).

Inductive body :=
| Message (message : string)                          (* {"message": ...} *)
| Status (r : Diagnostics.t)
| Saved (r : SaveResultResponse.t)
| Records (rs : list ResultRecord.t)
| Detail (detail : string)                            (* {"detail": ...} of an HTTPException *)
| ValidationErrors (errors : list (string * field_problem))
| InternalServerError.

Record http_response := { status_code : Z; content : body }.

(** What FastAPI answers for a handler's outcome: 200 with the rendered
    return value, the status and detail of a raised [HTTPException], and
    500 for any other exception.  The body is kept as the value handed to
    the JSON encoder; its encoding to text is not part of the model. *)
Definition respond {A} (render : A → body) (handler : M A) (w : world) : http_response * world :=
match handler w with
| (Ret a, w') => ({| status_code := 200; content := render a |}, w')
| (Raise (HTTPException code detail), w') => ({| status_code := code; content := Detail detail |}, w')
| (Raise _, w') => ({| status_code := 500; content := InternalServerError |}, w')
end.

Section Handlers.
Context {rt : Runtime}.

(** ** Request validation *)

(** Modelled from the spec: coercion of a request field to a float.
    [schemas.py] is not among the sources; section 4.2 says "payload fields
    are type-coerced to their declared numeric/string types; a value that
    cannot be coerced (e.g., non-numeric wpm) is rejected".  Numbers are
    taken as floats and numeric text is parsed. *)
Definition coerce_float (v : value) : option spec_float :=
  match v with
  | VFloat f => Some f
  | VInt _ | VBool _ =>
      match builtin_float v with
      | Ret f => Some f
      | Raise _ => None
      end
  | VStr s => float_of_str s
  | _ => None
  end.

(** Modelled from the spec: coercion of a request field to an integer.  A
    float is taken when it has no fractional part. *)
Definition coerce_int (v : value) : option Z :=
  match v with
  | VInt _ | VBool _ =>
      match builtin_int v with
      | Ret z => Some z
      | Raise _ => None
      end
  | VFloat f =>
      match builtin_int v with
      | Ret z =>
          match float_of_int z with
          | Ret g => if SFeqb g f then Some z else None
          | Raise _ => None
          end
      | Raise _ => None
      end
  | VStr s => int_of_str s
  | _ => None
  end.

(** Modelled from the spec: the optional [user_id], "optional opaque string
    identifying the test-taker; absent means anonymous". *)
Definition coerce_optional_str (v : value) : option (option string) :=
  match v with
  | VNone => Some None
  | VStr s => Some (Some s)
  | _ => None
  end.

Definition required {A} (name : string) (coerce : value → option A) (payload : document)
  : list (string * field_problem) + A :=
  match payload !! name with
  | None => inl [(name, FieldMissing)]
  | Some v =>
      match coerce v with
      | Some a => inr a
      | None => inl [(name, FieldNotCoercible v)]
      end
  end.

Definition optional {A} (name : string) (coerce : value → option (option A)) (payload : document)
  : list (string * field_problem) + option A :=
  match payload !! name with
  | None => inr None
  | Some v =>
      match coerce v with
      | Some a => inr a
      | None => inl [(name, FieldNotCoercible v)]
      end
  end.

Definition problems {A} (r : list (string * field_problem) + A) : list (string * field_problem) :=
  match r with
  | inl errors => errors
  | inr _ => []
  end.

(** Modelled from the spec: validation of the request body against
    [SaveResultRequest].  Every declared field is coerced; the problems of
    all fields are reported together; keys that are no declared field are
    ignored. *)
Definition validate (payload : document) : list (string * field_problem) + SaveResultRequest.t :=
  let wpm := required "wpm" coerce_float payload in
  let accuracy := required "accuracy" coerce_float payload in
  let mistakes := required "mistakes" coerce_int payload in
  let duration := required "duration" coerce_int payload in
  let user_id := optional "user_id" coerce_optional_str payload in
  match wpm, accuracy, mistakes, duration, user_id with
  | inr w, inr a, inr m, inr d, inr u =>
      inr {| SaveResultRequest.wpm := w; SaveResultRequest.accuracy := a;
             SaveResultRequest.mistakes := m; SaveResultRequest.duration := d;
             SaveResultRequest.user_id := u |}
  | _, _, _, _, _ =>
      inl (problems wpm ++ problems accuracy ++ problems mistakes ++ problems duration
           ++ problems user_id)
  end.

(** ** Handlers *)

Definition read_root : M string := mret "Typing Test Backend Running".

Definition hello : M string := mret "Hello from the backend API!".

(** ["✅ Set" if os.getenv(...) else "❌ Not Set"] *)
Definition env_flag (v : option string) : string :=
  if truthy v then "✅ Set" else "❌ Not Set".

(** Text is held in UTF-8: a character is a lead byte followed by its
    continuation bytes (those of the form [10xxxxxx]). *)
Definition continuation (c : Ascii.ascii) : bool :=
  match c with
  | Ascii.Ascii _ _ _ _ _ _ b6 b7 => b7 && negb b6
  end.

(** [len(s)]: the number of characters. *)
Fixpoint char_count (s : string) : nat :=
  match s with
  | EmptyString => O
  | String c s' => if continuation c then char_count s' else S (char_count s')
  end.

(** [s[:n]]: the first [n] characters, each with all its bytes. *)
Fixpoint take_chars (n : nat) (s : string) : string :=
  match s with
  | EmptyString => EmptyString
  | String c s' =>
      if continuation c then String c (take_chars n s')
      else
        match n with
        | O => EmptyString
        | S n' => String c (take_chars n' s')
        end
  end.

(** [s[:50]] *)
Definition first50 (s : string) : string := take_chars 50 s.

(** The body of the outer [try] of [test_database] when [db] is not None:
    the [response] as mutated so far, and the exception that leaves the
    block, if any.  [url] is what [os.getenv] answers for [DATABASE_URL]. *)
Definition inspect_database (h : database) (url : option string) (response : Diagnostics.t)
  : Diagnostics.t * option exn :=
  let response := Diagnostics.set_database "✅ Available" response in
  let response := Diagnostics.set_database_url (Some (env_flag url)) response in
  match name_attr h with
  | AttrRaises e => (response, Some e)
  | attr =>
      let name := match attr with AttrValue s => s | _ => "✅ Connected" end in
      let response := Diagnostics.set_database_name (Some name) response in
      let response := Diagnostics.set_connection_status "Connected" response in
      match collection_names h with
      | Ret collections =>
          let response := Diagnostics.set_collections (take 10 collections) response in
          (Diagnostics.set_database "✅ Connected & Working" response, None)
      | Raise e =>
          (Diagnostics.set_database ("⚠️  Connected but Error: " +:+ first50 (str e)) response,
           None)
      end
  end.

Definition test_database : M Diagnostics.t :=
  let response :=
    {| Diagnostics.backend := "✅ Running";
       Diagnostics.database := "❌ Not Available";
       Diagnostics.database_url := None;
       Diagnostics.database_name := None;
       Diagnostics.connection_status := "Not Connected";
       Diagnostics.collections := [] |} in
  d ← get_db;
  url ← getenv "DATABASE_URL";
  let '(response, raised) :=
    match d with
    | Some h => inspect_database h url response
    | None => (Diagnostics.set_database "⚠️  Available but not initialized" response, None)
    end in
  let response :=
    match raised with
    | Some e => Diagnostics.set_database ("❌ Error: " +:+ first50 (str e)) response
    | None => response
    end in
  url ← getenv "DATABASE_URL";
  name ← getenv "DATABASE_NAME";
  let response := Diagnostics.set_database_url (Some (env_flag url)) response in
  let response := Diagnostics.set_database_name (Some (env_flag name)) response in
  mret response.

Definition save_result (payload : SaveResultRequest.t) : M SaveResultResponse.t :=
  d ← get_db;
  match d with
  | None => raise (HTTPException 500 "Database not configured")
  | Some _ =>
      let data := SaveResultRequest.model_dump payload in
      now ← datetime_now_utc;
      let data := <["created_at" := VDatetime now]> data in
      let collection := "typingresult" in
      try_except
        (inserted_id ← create_document collection data;
         mret {| SaveResultResponse.id := inserted_id; SaveResultResponse.status := "ok" |})
        (λ e, raise (HTTPException 500 (str e)))
  end.

(** [d.get(key, default)] *)
Definition get (d : document) (key : string) (default : value) : value :=
  match d !! key with
  | Some v => v
  | None => default
  end.

(** One turn of the loop of [list_results]: the keyword arguments are
    evaluated left to right, the default of [created_at] is computed whether
    or not the key is there, and pydantic validates the field. *)
Definition normalize (d : document) : M ResultRecord.t :=
  wpm ← lift (builtin_float (get d "wpm" (VInt 0)));
  accuracy ← lift (builtin_float (get d "accuracy" (VInt 0)));
  mistakes ← lift (builtin_int (get d "mistakes" (VInt 0)));
  duration ← lift (builtin_int (get d "duration" (VInt 60)));
  now ← datetime_now_utc;
  created_at ← lift (validate_datetime "created_at" (get d "created_at" (VDatetime now)));
  mret {| ResultRecord.wpm := wpm; ResultRecord.accuracy := accuracy;
          ResultRecord.mistakes := mistakes; ResultRecord.duration := duration;
          ResultRecord.created_at := created_at |}.

(** [results.sort(key=lambda x: x.created_at)].  Python's sort is stable and
    orders by [<] on the keys; a stable sort has one possible outcome, so it
    is modelled as a stable insertion sort.  A comparison of a naive with an
    aware key raises, and any sort of a list that mixes them makes one. *)
Fixpoint insert_sorted (x : ResultRecord.t) (l : list ResultRecord.t) : result (list ResultRecord.t) :=
  match l with
  | [] => Ret [x]
  | y :: l' =>
      b ← datetime_lt (ResultRecord.created_at y) (ResultRecord.created_at x);
      if b : bool then l'' ← insert_sorted x l'; Ret (y :: l'') else Ret (x :: y :: l')
  end.

Fixpoint sort_by_created_at (l : list ResultRecord.t) : result (list ResultRecord.t) :=
  match l with
  | [] => Ret []
  | x :: l' => sorted ← sort_by_created_at l'; insert_sorted x sorted
  end.

Definition list_results (limit : Z) : M (list ResultRecord.t) :=
  d ← get_db;
  match d with
  | None => raise (HTTPException 500 "Database not configured")
  | Some _ =>
      try_except
        (docs ← get_documents "typingresult" ∅ limit;
         results ← mapM normalize docs;
         lift (sort_by_created_at results))
        (λ e, raise (HTTPException 500 (str e)))
  end.

(** ** Routes *)

Definition get_root : world → http_response * world := respond Message read_root.

Definition get_api_hello : world → http_response * world := respond Message hello.

Definition get_test : world → http_response * world := respond Status test_database.

(** [POST /api/results]: FastAPI validates the body first and answers 422
    with the field problems without calling the handler. *)
Definition post_api_results (payload : document) (w : world) : http_response * world :=
  match validate payload with
  | inl errors => ({| status_code := 422; content := ValidationErrors errors |}, w)
  | inr request => respond Saved (save_result request) w
  end.

(** [GET /api/results?limit=N]; [limit: int = 50]. *)
Definition get_api_results (limit : option Z) : world → http_response * world :=
  respond Records (list_results (default 50 limit)).

End Handlers.

(** The document [save_result] hands to the adapter for a request, in a
    world [w]: the dump of the request stamped with the next clock reading. *)
Definition stamped (w : world) (request : SaveResultRequest.t) : document :=
  <["created_at" := VDatetime {| instant := clock w (ticks w); tz_aware := true |}]>
    (SaveResultRequest.model_dump request).

(** ** What the list route is expected to return *)

Section Rendering.
Context {rt : Runtime}.

(** Order of two records by the instant of [created_at]. *)
Definition by_created_at (r1 r2 : ResultRecord.t) : Prop :=
  instant (ResultRecord.created_at r1) ≤ instant (ResultRecord.created_at r2).

(** A record whose [created_at] is aware ([a = true]) or naive. *)
Definition awareness (a : bool) (r : ResultRecord.t) : Prop :=
  tz_aware (ResultRecord.created_at r) = a.

(** The rendering of one field, in the spec's words: a present field is
    coerced, a missing one takes the default. *)
Definition field_is {A} (coerce : value → result A) (d : document) (key : string)
    (missing : A) (a : A) : Prop :=
  match d !! key with
  | Some v => coerce v = Ret a
  | None => a = missing
  end.

(** The rendering of a stored document, in the spec's words: missing [wpm],
    [accuracy] and [mistakes] default to 0, missing [duration] to 60 and
    missing [created_at] to the current time [now]. *)
Definition rendering (d : document) (now : Z) (r : ResultRecord.t) : Prop :=
  field_is builtin_float d "wpm" (S754_zero false) (ResultRecord.wpm r)
  ∧ field_is builtin_float d "accuracy" (S754_zero false) (ResultRecord.accuracy r)
  ∧ field_is builtin_int d "mistakes" 0 (ResultRecord.mistakes r)
  ∧ field_is builtin_int d "duration" 60 (ResultRecord.duration r)
  ∧ field_is (validate_datetime "created_at") d "created_at"
      {| instant := now; tz_aware := true |} (ResultRecord.created_at r).

(** A field that is missing, or present with a value the coercion takes. *)
Definition coercible {A} (coerce : value → result A) (d : document) (key : string) : bool :=
  match d !! key with
  | Some v => is_ret (coerce v)
  | None => true
  end.

(** Whether the [created_at] a document is rendered with is aware: the
    default is; [None] when the stored value is no datetime. *)
Definition created_at_awareness (d : document) : option bool :=
  match d !! "created_at" with
  | Some v =>
      match validate_datetime "created_at" v with
      | Ret t => Some (tz_aware t)
      | Raise _ => None
      end
  | None => Some true
  end.

(** A document whose present fields are coercible and whose [created_at]
    is rendered with awareness [aware]. *)
Definition renders (aware : bool) (d : document) : bool :=
  coercible builtin_float d "wpm"
  && coercible builtin_float d "accuracy"
  && coercible builtin_int d "mistakes"
  && coercible builtin_int d "duration"
  && bool_decide (created_at_awareness d = Some aware).

(** The documents a fetch with [limit] reads. *)
Definition fetched (limit : Z) (w : world) : list document :=
  take (Z.to_nat limit) (stored w).

End Rendering.

(** ** A runtime and worlds for the examples *)

(** [type(v).__name__] *)
Definition type_name (v : value) : string :=
  match v with
  | VNone => "NoneType"
  | VBool _ => "bool"
  | VInt _ => "int"
  | VFloat _ => "float"
  | VStr _ => "str"
  | VDatetime _ => "datetime.datetime"
  | VObjectId _ => "ObjectId"
  end.

(** Messages as CPython words them; text is parsed when it is decimal
    integer text (the examples parse none). *)
Definition example_describe (e : builtin_error) : string :=
  match e with
  | FloatArgument v =>
      "float() argument must be a string or a real number, not '" +:+ type_name v +:+ "'"
  | FloatLiteral s => "could not convert string to float: '" +:+ s +:+ "'"
  | FloatOverflow _ => "int too large to convert to float"
  | IntArgument v =>
      "int() argument must be a string, a bytes-like object or a real number, not '"
      +:+ type_name v +:+ "'"
  | IntLiteral s => "invalid literal for int() with base 10: '" +:+ s +:+ "'"
  | IntOfNaN => "cannot convert float NaN to integer"
  | IntOfInfinity => "cannot convert float infinity to integer"
  | DatetimeCompare => "can't compare offset-naive and offset-aware datetimes"
  | FieldValidation field _ => "1 validation error for ResultRecord: " +:+ field
  end.

Definition example_int_of_str (s : string) : option Z :=
  Z.of_int <$> NilZero.int_of_string s.

Definition example_runtime : Runtime :=
  {| float_of_str := λ s,
       z ← example_int_of_str s;
       match binary_normalize 53 1024 z 0 false with
       | S754_infinity _ => None
       | f => Some f
       end;
     int_of_str := example_int_of_str;
     datetime_of_value := λ _, None;
     describe := example_describe |}.

(** A connected, healthy and empty database. *)
Definition example_database : database :=
  {| name_attr := AttrValue "typing";
     collection_names := Ret ["typingresult"];
     connection_fault := None;
     write_rejection := λ _, None;
     collections := ∅;
     next_id := 0 |}.

Definition example_world (d : option database) : world :=
  {| db := d;
     environ := {[ "DATABASE_URL" := "mongodb://localhost:27017" ]};
     clock := λ n, 1700000000000000 + Z.of_nat n;
     ticks := 0 |}.

(** 85.5 and 97.25 as binary64 values. *)
Definition float_85_5 : spec_float := S754_finite false 6016527627190272 (-46).
Definition float_97_25 : spec_float := S754_finite false 6843360371277824 (-46).

(** [{"wpm": 85.5, "accuracy": 97.25, "mistakes": 3, "duration": 60}] *)
Definition example_payload : document :=
  <["wpm" := VFloat float_85_5]>
  (<["accuracy" := VFloat float_97_25]>
  (<["mistakes" := VInt 3]>
  (<["duration" := VInt 60]> ∅))).

(** The request [example_payload] validates to. *)
Definition example_request : SaveResultRequest.t :=
  {| SaveResultRequest.wpm := float_85_5;
     SaveResultRequest.accuracy := float_97_25;
     SaveResultRequest.mistakes := 3;
     SaveResultRequest.duration := 60;
     SaveResultRequest.user_id := None |}.

(** The record the list route renders for it when it was saved at the
    first clock reading of [example_world]. *)
Definition example_record : ResultRecord.t :=
  {| ResultRecord.wpm := float_85_5;
     ResultRecord.accuracy := float_97_25;
     ResultRecord.mistakes := 3;
     ResultRecord.duration := 60;
     ResultRecord.created_at := {| instant := 1700000000000000; tz_aware := true |} |}.

(** The same payload sent by a named user. *)
Definition alice_payload : document := <["user_id" := VStr "alice"]> example_payload.

(** A database holding the given typing results. *)
Definition database_with (docs : list document) : database :=
  {| name_attr := AttrValue "typing";
     collection_names := Ret ["typingresult"];
     connection_fault := None;
     write_rejection := λ _, None;
     collections := {[ "typingresult" := docs ]};
     next_id := length docs |}.

(** Three stored documents: one with no field at all, one with only
    [wpm] and [created_at], and one complete but older. *)
Definition legacy_documents : list document :=
  [ ∅;
    <["wpm" := VInt 70]> (<["created_at" := VDatetime {| instant := 1600000000000000; tz_aware := true |}]> ∅);
    <["wpm" := VFloat float_85_5]>
      (<["accuracy" := VFloat float_97_25]>
      (<["mistakes" := VInt 3]>
      (<["duration" := VInt 30]>
      (<["created_at" := VDatetime {| instant := 1500000000000000; tz_aware := true |}]> ∅)))) ].

(** A stored document whose [wpm] is present and null. *)
Definition null_wpm_document : document := {[ "wpm" := VNone ]}.

(** A stored document dated by a naive datetime, next to one with no
    [created_at]. *)
Definition naive_and_missing_documents : list document :=
  [ {[ "created_at" := VDatetime {| instant := 1600000000000000; tz_aware := false |} ]};
    ∅ ].

(** A failure description of 64 characters. *)
Definition long_message : string :=
  "connection refused: no reachable server in the replica set [rs0]".

(** A database that has lost its connection. *)
Definition disconnected_database : database :=
  {| name_attr := AttrValue "typing";
     collection_names := Raise (AdapterError long_message);
     connection_fault := Some long_message;
     write_rejection := λ _, None;
     collections := ∅;
     next_id := 0 |}.

(** A world whose [DATABASE_URL] is set to the empty text. *)
Definition empty_url_world : world :=
  {| db := Some example_database;
     environ := {[ "DATABASE_URL" := "" ]};
     clock := λ n, 1700000000000000 + Z.of_nat n;
     ticks := 0 |}.

(** The request [alice_payload] validates to. *)
Definition alice_request : SaveResultRequest.t :=
  {| SaveResultRequest.wpm := float_85_5;
     SaveResultRequest.accuracy := float_97_25;
     SaveResultRequest.mistakes := 3;
     SaveResultRequest.duration := 60;
     SaveResultRequest.user_id := Some "alice" |}.

(** Two stored documents in chronological order, both dated. *)
Definition chronological_documents : list document :=
  [ <["wpm" := VInt 70]>
      (<["created_at" := VDatetime {| instant := 1500000000000000; tz_aware := true |}]> ∅);
    <["wpm" := VFloat float_85_5]>
      (<["created_at" := VDatetime {| instant := 1600000000000000; tz_aware := true |}]> ∅) ].

(** A connected database whose collections cannot be listed; the
    description of the failure has 50 characters in 57 bytes. *)
Definition unlistable_database : database :=
  {| name_attr := AttrValue "typing";
     collection_names :=
       Raise (AdapterError "échec : accès refusé à la base de données protégée");
     connection_fault := None;
     write_rejection := λ _, None;
     collections := ∅;
     next_id := 0 |}.

(** Whether a document has a [created_at]. *)
Definition dated (d : document) : bool :=
  match d !! "created_at" with
  | Some _ => true
  | None => false
  end.

(** ** Further vocabulary for the properties *)

(** [w'] is [w] after some clock readings: same handle (and so the same
    stored documents), same environment, same clock, no fewer readings. *)
Definition advances (w w' : world) : Prop :=
  db w' = db w ∧ environ w' = environ w ∧ clock w' = clock w ∧ (ticks w ≤ ticks w')%nat.

(** Records whose [created_at] all have the same awareness. *)
Definition uniform (l : list ResultRecord.t) : Prop :=
  ∀ x y, x ∈ l → y ∈ l →
    tz_aware (ResultRecord.created_at x) = tz_aware (ResultRecord.created_at y).

(** [port = int(os.getenv("PORT", 8000))] of the [__main__] block. *)
Definition server_port `{Runtime} : M Z :=
  v ← getenv "PORT";
  lift (builtin_int (match v with Some s => VStr s | None => VInt 8000 end)).

(** ** Properties of the routes *)

Section Properties.
Context {rt : Runtime}.

Ltac run :=
  unfold get_test, post_api_results, get_api_results, respond, test_database,
    save_result, list_results, mbind, M_bind, mret, M_ret, get_db, getenv, raise,
    try_except, lift, datetime_now_utc, create_document, get_documents in *;
  cbn in *.

Lemma first50_length (s : string) : (char_count (first50 s) ≤ 50)%nat.
Proof.
  unfold first50. generalize 50%nat. induction s as [|c s IH]; intros n; cbn; [lia|].
  destruct (continuation c) eqn:Hc; cbn; rewrite ?Hc; [apply IH|].
  destruct n as [|n]; cbn; rewrite ?Hc; [lia|]. specialize (IH n). lia.
Qed.

Lemma length_take_10 {A} (l : list A) : (length (take 10 l) ≤ 10)%nat.
Proof. rewrite length_take. lia. Qed.

(** C7: [GET /test] answers 200 with a status object in every state of the
    storage adapter and leaves the world as it was; an exception raised by
    the handle is rendered in the [database] text (cut to 50 characters)
    rather than propagated, whether it comes from listing the collections
    or from elsewhere in the inspection; and at most 10 collection names
    are listed. *)
Theorem test_never_fails (w : world) :
  ∃ r : Diagnostics.t,
    get_test w = ({| status_code := 200; content := Status r |}, w)
    ∧ (length (Diagnostics.collections r) ≤ 10)%nat
    ∧ (db w = None → Diagnostics.database r = "⚠️  Available but not initialized")
    ∧ (∀ h e, db w = Some h → name_attr h = AttrRaises e →
         Diagnostics.database r = "❌ Error: " +:+ first50 (str e))
    ∧ (∀ h e, db w = Some h → (∀ e', name_attr h ≠ AttrRaises e') →
         collection_names h = Raise e →
         Diagnostics.database r = "⚠️  Connected but Error: " +:+ first50 (str e))
    ∧ (∀ h names, db w = Some h → (∀ e', name_attr h ≠ AttrRaises e') →
         collection_names h = Ret names →
         Diagnostics.database r = "✅ Connected & Working"
         ∧ Diagnostics.collections r = take 10 names).
Proof.
  run. destruct (db w) as [h|] eqn:Hdb; cbn.
  - unfold inspect_database.
    destruct (name_attr h) as [|s|e0] eqn:Hname;
      destruct (collection_names h) as [names|e1] eqn:Hnames; cbn;
      eexists; (split; [reflexivity|]); cbn;
      repeat split; try apply length_take_10; try (cbn; lia);
      intros; simplify_eq; try congruence; try done;
      try (exfalso; eapply H0; eassumption); try (exfalso; eapply H0; reflexivity).
  - eexists; split; [reflexivity|]. cbn. repeat split; try lia; intros; simplify_eq.
Qed.

Lemma env_flag_set (v : option string) :
  env_flag v = "✅ Set" ↔ ∃ s, v = Some s ∧ s ≠ "".
Proof.
  unfold env_flag, truthy. destruct v as [s|]; cbn.
  - destruct (String.eqb s "") eqn:E; cbn.
    + apply String.eqb_eq in E. split; [discriminate|]. intros (s' & [= <-] & Hne). done.
    + apply String.eqb_neq in E. split; [intros _; by exists s|done].
  - split; [discriminate|]. by intros (s & ? & _).
Qed.

Lemma env_flag_not_set (v : option string) :
  env_flag v = "❌ Not Set" ↔ v = None ∨ v = Some "".
Proof.
  unfold env_flag, truthy. destruct v as [s|]; cbn.
  - destruct (String.eqb s "") eqn:E; cbn.
    + apply String.eqb_eq in E. subst s. split; [by right|done].
    + apply String.eqb_neq in E. split; [discriminate|]. intros [?|[= ->]]; done.
  - split; [by left|done].
Qed.

(** C10, as the code has it: in every [GET /test] response [database_url]
    and [database_name] are "Set" exactly when [DATABASE_URL] and
    [DATABASE_NAME] hold a non-empty text in the environment, and "Not Set"
    exactly when the variable is unset or empty; nothing else enters them.
    The name of the connected database, which the inspection writes into
    [database_name] first, is overwritten before the response is returned,
    in every state of the connection. *)
Theorem test_reports_env_flags (w : world) :
  (∃ r : Diagnostics.t,
     get_test w = ({| status_code := 200; content := Status r |}, w)
     ∧ (Diagnostics.database_url r = Some "✅ Set"
        ↔ ∃ s, environ w !! "DATABASE_URL" = Some s ∧ s ≠ "")
     ∧ (Diagnostics.database_url r = Some "❌ Not Set"
        ↔ environ w !! "DATABASE_URL" = None ∨ environ w !! "DATABASE_URL" = Some "")
     ∧ (Diagnostics.database_name r = Some "✅ Set"
        ↔ ∃ s, environ w !! "DATABASE_NAME" = Some s ∧ s ≠ "")
     ∧ (Diagnostics.database_name r = Some "❌ Not Set"
        ↔ environ w !! "DATABASE_NAME" = None ∨ environ w !! "DATABASE_NAME" = Some ""))
  ∧ (∀ h name url response, name_attr h = AttrValue name →
       Diagnostics.database_name (inspect_database h url response).1 = Some name).
Proof.
  split.
  - assert (∃ r : Diagnostics.t,
      get_test w = ({| status_code := 200; content := Status r |}, w)
      ∧ Diagnostics.database_url r = Some (env_flag (environ w !! "DATABASE_URL"))
      ∧ Diagnostics.database_name r = Some (env_flag (environ w !! "DATABASE_NAME")))
      as (r & Hget & Hurl & Hname).
    { run. destruct (db w) as [h|]; cbn.
      + destruct (inspect_database h (environ w !! "DATABASE_URL") _) as [r [e|]];
          eexists; repeat split.
      + eexists; repeat split. }
    exists r. split; [exact Hget|]. rewrite Hurl, Hname.
    rewrite <- env_flag_set, <- env_flag_not_set, <- env_flag_set, <- env_flag_not_set.
    repeat split; congruence.
  - intros h name url response Hname. unfold inspect_database. rewrite Hname.
    destruct (collection_names h); reflexivity.
Qed.

(** C6, as the code has it: with no database handle, a [POST /api/results]
    whose body passes validation, and every [GET /api/results], answer 500
    with the detail "Database not configured" (a body that fails validation
    is answered 422 first); [GET /test] answers 200, with
    [connection_status] "Not Connected", no collections, and the [database]
    text "Available but not initialized". *)
Theorem unconfigured_storage (w : world) :
  db w = None →
  (∀ payload request, validate payload = inr request →
     post_api_results payload w
     = ({| status_code := 500; content := Detail "Database not configured" |}, w))
  ∧ (∀ payload errors, validate payload = inl errors →
     post_api_results payload w
     = ({| status_code := 422; content := ValidationErrors errors |}, w))
  ∧ (∀ limit,
     get_api_results limit w
     = ({| status_code := 500; content := Detail "Database not configured" |}, w))
  ∧ (∃ r : Diagnostics.t,
     get_test w = ({| status_code := 200; content := Status r |}, w)
     ∧ Diagnostics.database r = "⚠️  Available but not initialized"
     ∧ Diagnostics.connection_status r = "Not Connected"
     ∧ Diagnostics.collections r = []).
Proof.
  intros Hdb. repeat split.
  - intros payload request Hv. run. rewrite Hv, Hdb. reflexivity.
  - intros payload errors Hv. run. rewrite Hv. reflexivity.
  - intros limit. run. rewrite Hdb. reflexivity.
  - run. rewrite Hdb. cbn. eexists. repeat split.
Qed.

(** C8, as the code has it: when the adapter fails during
    [POST /api/results] or [GET /api/results], the answer is 500 and its
    detail is the whole description [str(e)] of the failure, not a
    truncation of it. *)
Theorem storage_failure_detail (w : world) (h : database) (msg : string) :
  db w = Some h →
  (∀ payload request,
     validate payload = inr request →
     connection_fault h = Some msg
     ∨ (connection_fault h = None
        ∧ write_rejection h (stamped w request) = Some msg) →
     post_api_results payload w
     = ({| status_code := 500; content := Detail msg |}, set_ticks (S (ticks w)) w))
  ∧ (∀ limit,
     connection_fault h = Some msg →
     get_api_results limit w = ({| status_code := 500; content := Detail msg |}, w)).
Proof.
  intros Hdb. split.
  - intros payload request Hv Hfail. unfold stamped in Hfail. run.
    rewrite Hv, Hdb. cbn. rewrite Hdb.
    destruct Hfail as [-> | [-> ->]]; reflexivity.
  - intros limit Hfail. run. rewrite Hdb. cbn. rewrite Hdb, Hfail. reflexivity.
Qed.

(** C9, as the code has it: every record [GET /api/results] returns has
    exactly the fields [wpm], [accuracy], [mistakes], [duration] and
    [created_at]; neither [id] nor [user_id] is returned. *)
Theorem listed_record_fields (w w' : world) (limit : option Z) (rs : list ResultRecord.t) :
  get_api_results limit w = ({| status_code := 200; content := Records rs |}, w') →
  Forall (λ r,
    dom (ResultRecord.model_dump r)
      = ({[ "wpm"; "accuracy"; "mistakes"; "duration"; "created_at" ]} : gset string)
    ∧ ResultRecord.model_dump r !! "id" = None
    ∧ ResultRecord.model_dump r !! "user_id" = None) rs.
Proof.
  intros _. apply Forall_forall. intros r _. unfold ResultRecord.model_dump.
  split; [|split].
  - rewrite !dom_insert_L, dom_empty_L. set_solver.
  - by simplify_map_eq.
  - by simplify_map_eq.
Qed.

Lemma required_problem {A} (coerce : value → option A) (payload : document) name v :
  payload !! name = Some v → coerce v = None →
  required name coerce payload = inl [(name, FieldNotCoercible v)].
Proof. intros Hl Hc. unfold required. by rewrite Hl, Hc. Qed.

(** C2: a [POST /api/results] whose [wpm] cannot be coerced to a number is
    answered 422 (a 4xx status) with the problem of the [wpm] field; the
    handler and the adapter are not called: the world, and with it the
    stored records, is unchanged. *)
Theorem non_numeric_wpm_rejected (w : world) (payload : document) (v : value) :
  payload !! "wpm" = Some v →
  coerce_float v = None →
  ∃ errors,
    post_api_results payload w
    = ({| status_code := 422; content := ValidationErrors errors |}, w)
    ∧ ("wpm", FieldNotCoercible v) ∈ errors
    ∧ 400 ≤ 422 < 500
    ∧ length (stored (post_api_results payload w).2) = length (stored w).
Proof.
  intros Hl Hc. unfold post_api_results, validate.
  rewrite (required_problem coerce_float payload "wpm" v Hl Hc). cbn.
  eexists. split; [reflexivity|]. split; [|split; [lia|reflexivity]].
  apply list_elem_of_here.
Qed.

(** *** The sort *)

Lemma insert_sorted_perm x l l' :
  insert_sorted x l = Ret l' → l' ≡ₚ x :: l.
Proof.
  revert l'. induction l as [|y l IH]; intros l' H; cbn in H.
  - by simplify_eq.
  - destruct (datetime_lt _ _) as [[|]|e]; cbn in H; [|by simplify_eq|done].
    destruct (insert_sorted x l) as [l1|e]; cbn in H; [|done]. simplify_eq.
    rewrite (IH l1 eq_refl). apply Permutation_swap.
Qed.

Lemma sort_by_created_at_perm l l' :
  sort_by_created_at l = Ret l' → l' ≡ₚ l.
Proof.
  revert l'. induction l as [|x l IH]; intros l' H; cbn in H.
  - by simplify_eq.
  - destruct (sort_by_created_at l) as [l1|e]; cbn in H; [|done].
    rewrite (insert_sorted_perm _ _ _ H). by rewrite (IH l1 eq_refl).
Qed.

Lemma datetime_lt_ret a b c :
  datetime_lt a b = Ret c → c = (instant a <? instant b).
Proof. unfold datetime_lt. destruct (Bool.eqb _ _); intros; by simplify_eq. Qed.

Lemma insert_sorted_hd x y l l' :
  insert_sorted x l = Ret l' → by_created_at y x → HdRel by_created_at y l →
  HdRel by_created_at y l'.
Proof.
  intros H Hyx Hhd. destruct l as [|z l]; cbn in H.
  - simplify_eq. by constructor.
  - destruct (datetime_lt _ _) as [[|]|e]; cbn in H; [| |done].
    + destruct (insert_sorted x l); cbn in H; [|done]. simplify_eq.
      constructor. by apply HdRel_inv in Hhd.
    + simplify_eq. by constructor.
Qed.

Lemma insert_sorted_sorted x l l' :
  Sorted by_created_at l → insert_sorted x l = Ret l' → Sorted by_created_at l'.
Proof.
  revert l'. induction l as [|y l IH]; intros l' Hs H; cbn in H.
  - simplify_eq. repeat constructor.
  - destruct (datetime_lt _ _) as [b|e] eqn:Hlt; cbn in H; [|done].
    apply datetime_lt_ret in Hlt. apply Sorted_inv in Hs as [Hs Hhd]. destruct b.
    + destruct (insert_sorted x l) as [l1|e] eqn:Hins; cbn in H; [|done]. simplify_eq.
      constructor; [by apply IH|]. eapply insert_sorted_hd; [done| |done].
      unfold by_created_at. lia.
    + simplify_eq. constructor; [by constructor|]. constructor.
      unfold by_created_at. lia.
Qed.

Lemma sort_by_created_at_sorted l l' :
  sort_by_created_at l = Ret l' → Sorted by_created_at l'.
Proof.
  revert l'. induction l as [|x l IH]; intros l' H; cbn in H.
  - simplify_eq. constructor.
  - destruct (sort_by_created_at l) as [l1|e]; cbn in H; [|done].
    eapply insert_sorted_sorted; [|done]. by apply IH.
Qed.

Lemma insert_sorted_ret a x l :
  awareness a x → Forall (awareness a) l → ∃ l', insert_sorted x l = Ret l'.
Proof.
  intros Hx. induction 1 as [|y l Hy Hl [l1 IH]]; cbn; [by eexists|].
  unfold datetime_lt. unfold awareness in *. rewrite Hx, Hy, Bool.eqb_reflx. cbn.
  destruct (_ <? _); [|by eexists]. rewrite IH. by eexists.
Qed.

Lemma sort_by_created_at_ret a l :
  Forall (awareness a) l → ∃ l', sort_by_created_at l = Ret l'.
Proof.
  induction 1 as [|x l Hx Hl [l1 IH]]; cbn; [by eexists|].
  rewrite IH. cbn. apply (insert_sorted_ret a); [done|].
  apply sort_by_created_at_perm in IH. by rewrite IH.
Qed.

(** *** The loop *)

Lemma set_ticks_same (w : world) : set_ticks (ticks w + 0)%nat w = w.
Proof. destruct w. unfold set_ticks. cbn. f_equal. lia. Qed.

Lemma set_ticks_succ (w : world) (n : nat) :
  set_ticks (ticks (set_ticks (S (ticks w)) w) + n)%nat (set_ticks (S (ticks w)) w)
  = set_ticks (ticks w + S n)%nat w.
Proof. unfold set_ticks. cbn. f_equal. lia. Qed.

Lemma field_is_get {A} (coerce : value → result A) d key dflt missing a :
  coerce dflt = Ret missing → coerce (get d key dflt) = Ret a →
  field_is coerce d key missing a.
Proof. unfold get, field_is. destruct (d !! key); congruence. Qed.

Lemma coercible_get {A} (coerce : value → result A) d key dflt missing :
  coerce dflt = Ret missing → coercible coerce d key = true →
  ∃ a, coerce (get d key dflt) = Ret a.
Proof.
  unfold get, coercible. destruct (d !! key) as [v|]; [|by eexists].
  destruct (coerce v); [by eexists|done].
Qed.

Lemma normalize_ret d w r w' :
  normalize d w = (Ret r, w') →
  w' = set_ticks (S (ticks w)) w ∧ rendering d (clock w (ticks w)) r.
Proof.
  unfold normalize, mbind, M_bind, mret, M_ret, lift, datetime_now_utc.
  destruct (builtin_float (get d "wpm" _)) as [x1|] eqn:E1; [|done].
  destruct (builtin_float (get d "accuracy" _)) as [x2|] eqn:E2; [|done].
  destruct (builtin_int (get d "mistakes" _)) as [x3|] eqn:E3; [|done].
  destruct (builtin_int (get d "duration" _)) as [x4|] eqn:E4; [|done].
  destruct (validate_datetime _ (get d "created_at" _)) as [x5|] eqn:E5; [|done].
  intros [= <- <-]. split; [done|]. unfold rendering. cbn.
  repeat split; eapply field_is_get; try eassumption; reflexivity.
Qed.

Lemma normalize_renders a d w :
  renders a d = true →
  ∃ r, normalize d w = (Ret r, set_ticks (S (ticks w)) w) ∧ awareness a r.
Proof.
  unfold renders. rewrite !andb_true_iff, bool_decide_eq_true.
  intros [[[[H1 H2] H3] H4] H5].
  eapply (coercible_get _ _ _ (VInt 0)) in H1 as [x1 E1]; [|reflexivity].
  eapply (coercible_get _ _ _ (VInt 0)) in H2 as [x2 E2]; [|reflexivity].
  eapply (coercible_get _ _ _ (VInt 0)) in H3 as [x3 E3]; [|reflexivity].
  eapply (coercible_get _ _ _ (VInt 60)) in H4 as [x4 E4]; [|reflexivity].
  unfold normalize, mbind, M_bind, mret, M_ret, lift, datetime_now_utc.
  rewrite E1, E2, E3, E4. unfold created_at_awareness, get in *.
  destruct (d !! "created_at") as [v|].
  - destruct (validate_datetime "created_at" v) as [t|]; [|done].
    eexists. split; [reflexivity|]. unfold awareness. cbn. congruence.
  - cbn. eexists. split; [reflexivity|]. unfold awareness. cbn. congruence.
Qed.

Lemma mapM_normalize_cons d docs w :
  mapM normalize (d :: docs) w
  = match normalize d w with
    | (Ret r, w1) =>
        match mapM normalize docs w1 with
        | (Ret rs, w2) => (Ret (r :: rs), w2)
        | (Raise e, w2) => (Raise e, w2)
        end
    | (Raise e, w1) => (Raise e, w1)
    end.
Proof. reflexivity. Qed.

Lemma mapM_normalize_ret docs : ∀ w rs w',
  mapM normalize docs w = (Ret rs, w') →
  w' = set_ticks (ticks w + length docs)%nat w
  ∧ length rs = length docs
  ∧ ∀ (i : nat) d, docs !! i = Some d →
      ∃ r, rs !! i = Some r ∧ rendering d (clock w (ticks w + i)%nat) r.
Proof.
  induction docs as [|d docs IH]; intros w rs w' H.
  - cbn in H. unfold mret, M_ret in H. simplify_eq. split; [by rewrite set_ticks_same|].
    split; [done|]. intros i d Hi. by rewrite lookup_nil in Hi.
  - rewrite mapM_normalize_cons in H.
    destruct (normalize d w) as [[r|e] w1] eqn:Hd; [|done].
    apply normalize_ret in Hd as [-> Hr].
    destruct (mapM normalize docs _) as [[rs1|e] w2] eqn:Hrest; [|done].
    apply IH in Hrest as (-> & Hlen & Hall).
    simplify_eq. split; [by rewrite set_ticks_succ|].
    split; [cbn; lia|]. intros [|i] d' Hi; cbn in Hi.
    + simplify_eq. exists r. split; [done|]. by replace (ticks w + 0)%nat with (ticks w) by lia.
    + destruct (Hall i d' Hi) as (r' & Hr' & Hrend). exists r'. split; [done|].
      cbn in Hrend. by replace (ticks w + S i)%nat with (S (ticks w + i)) by lia.
Qed.

Lemma mapM_normalize_renders a docs : ∀ w,
  Forall (λ d, renders a d = true) docs →
  ∃ rs, mapM normalize docs w = (Ret rs, set_ticks (ticks w + length docs)%nat w)
        ∧ Forall (awareness a) rs.
Proof.
  induction docs as [|d docs IH]; intros w Hall.
  - exists []. cbn. unfold mret, M_ret. by rewrite set_ticks_same.
  - apply Forall_cons in Hall as [Hd Hall].
    destruct (normalize_renders a d w Hd) as (r & Hr & Ha).
    destruct (IH (set_ticks (S (ticks w)) w) Hall) as (rs & Hrs & Has).
    exists (r :: rs). rewrite mapM_normalize_cons, Hr, Hrs.
    rewrite set_ticks_succ. split; [done|]. by constructor.
Qed.

Lemma filter_matches_empty (l : list document) : filter (λ d, matches ∅ d) l = l.
Proof.
  induction l as [|d l IH]; [done|]. rewrite filter_cons, IH.
  unfold matches. rewrite bool_decide_eq_true_2; [done|]. apply map_Forall_empty.
Qed.

(** *** The list handler *)

(** [list_results] on a configured database, step by step. *)
Lemma list_results_run w h limit :
  db w = Some h →
  list_results limit w
  = match connection_fault h with
    | Some msg => (Raise (HTTPException 500 msg), w)
    | None =>
        match mapM normalize (fetched limit w) w with
        | (Ret results, w1) =>
            match sort_by_created_at results with
            | Ret rs => (Ret rs, w1)
            | Raise e => (Raise (HTTPException 500 (str e)), w1)
            end
        | (Raise e, w1) => (Raise (HTTPException 500 (str e)), w1)
        end
    end.
Proof.
  intros Hdb. unfold fetched, stored.
  unfold list_results, mbind, M_bind, get_db, try_except, get_documents, raise, lift.
  rewrite Hdb. cbn. rewrite Hdb. destruct (connection_fault h); [reflexivity|].
  rewrite filter_matches_empty.
  destruct (mapM normalize _ w) as [[results|e] w1]; [|done].
  by destruct (sort_by_created_at results).
Qed.

Lemma list_results_length w limit rs w' :
  list_results limit w = (Ret rs, w') → (length rs ≤ Z.to_nat limit)%nat.
Proof.
  destruct (db w) as [h|] eqn:Hdb.
  - rewrite (list_results_run w h limit Hdb).
    destruct (connection_fault h); [done|].
    destruct (mapM normalize _ w) as [[results|e] w1] eqn:Hloop; [|done].
    destruct (sort_by_created_at results) as [sorted|e] eqn:Hsort; [|done].
    intros [= <- <-]. apply mapM_normalize_ret in Hloop as (_ & Hlen & _).
    apply sort_by_created_at_perm, Permutation_length in Hsort.
    rewrite Hsort, Hlen. unfold fetched. rewrite length_take. lia.
  - unfold list_results, mbind, M_bind, get_db, raise. by rewrite Hdb.
Qed.

Lemma respond_records_200 (handler : M (list ResultRecord.t)) w rs w' :
  respond Records handler w = ({| status_code := 200; content := Records rs |}, w') →
  handler w = (Ret rs, w').
Proof.
  unfold respond. destruct (handler w) as [[a|[code detail|msg|b]] w1]; intros H; by simplify_eq.
Qed.

(** C3: [GET /api/results?limit=N] with [N >= 0] returns at most [N]
    records; without the query parameter the route behaves as with
    [limit=50], so at most 50 records are returned. *)
Theorem limit_bounds_records (w : world) (N : Z) :
  0 ≤ N →
  (∀ rs w', get_api_results (Some N) w
            = ({| status_code := 200; content := Records rs |}, w') →
            Z.of_nat (length rs) ≤ N)
  ∧ get_api_results None w = get_api_results (Some 50) w
  ∧ (∀ rs w', get_api_results None w
              = ({| status_code := 200; content := Records rs |}, w') →
              (length rs ≤ 50)%nat).
Proof.
  intros HN. split; [|split; [reflexivity|]].
  - intros rs w' H. apply respond_records_200, list_results_length in H. cbn in H. lia.
  - intros rs w' H. apply respond_records_200, list_results_length in H. cbn in H. lia.
Qed.

(** The list handler on documents that all render with the same awareness:
    the records are those of the documents, each rendered at its own clock
    reading, in the order of [created_at]. *)
Lemma list_results_renders a w h limit :
  db w = Some h → connection_fault h = None →
  Forall (λ d, renders a d = true) (fetched limit w) →
  ∃ rs rs0,
    list_results limit w
    = (Ret rs, set_ticks (ticks w + length (fetched limit w))%nat w)
    ∧ Sorted by_created_at rs
    ∧ rs ≡ₚ rs0
    ∧ length rs0 = length (fetched limit w)
    ∧ ∀ (i : nat) d, fetched limit w !! i = Some d →
        ∃ r, rs0 !! i = Some r ∧ rendering d (clock w (ticks w + i)%nat) r.
Proof.
  intros Hdb Hconn Hall. rewrite (list_results_run w h limit Hdb), Hconn.
  destruct (mapM_normalize_renders a _ w Hall) as (rs0 & Hloop & Haware).
  rewrite Hloop. apply mapM_normalize_ret in Hloop as (_ & Hlen & Hrend).
  destruct (sort_by_created_at_ret a rs0 Haware) as (rs & Hsort). rewrite Hsort.
  exists rs, rs0. split; [done|]. split; [by eapply sort_by_created_at_sorted|].
  split; [by apply sort_by_created_at_perm|]. by split.
Qed.

(** C4, as the code has it: when the fetch itself succeeds and the fetched
    documents render (every present [wpm], [accuracy], [mistakes] and
    [duration] is coercible and the [created_at] values have one
    awareness), [GET /api/results] answers 200 with one record per
    document, a missing [wpm], [accuracy] or [mistakes] rendered as 0, a
    missing [duration] as 60 and a missing [created_at] as the clock
    reading made for that document, and the records are in non-decreasing
    order of [created_at].  A missing field is none of the conditions. *)
Theorem list_renders_defaults_sorted (w : world) (h : database) (limit : Z) (a : bool) :
  db w = Some h →
  connection_fault h = None →
  Forall (λ d, renders a d = true) (fetched limit w) →
  ∃ rs rs0 w',
    get_api_results (Some limit) w = ({| status_code := 200; content := Records rs |}, w')
    ∧ Sorted by_created_at rs
    ∧ rs ≡ₚ rs0
    ∧ length rs0 = length (fetched limit w)
    ∧ ∀ (i : nat) d, fetched limit w !! i = Some d →
        ∃ r, rs0 !! i = Some r ∧ rendering d (clock w (ticks w + i)%nat) r.
Proof.
  intros Hdb Hconn Hall.
  destruct (list_results_renders a w h limit Hdb Hconn Hall) as (rs & rs0 & Hrun & H).
  exists rs, rs0. eexists. split; [|exact H].
  unfold get_api_results, respond. cbn. by rewrite Hrun.
Qed.

(** *** The save handler *)

Lemma render_id_nonempty n : render_id n ≠ "".
Proof. unfold render_id. cbn. discriminate. Qed.

(** [save_result] on a configured database, step by step. *)
Lemma save_result_run w h request :
  db w = Some h →
  save_result request w
  = let w1 := set_ticks (S (ticks w)) w in
    match connection_fault h with
    | Some msg => (Raise (HTTPException 500 msg), w1)
    | None =>
        match write_rejection h (stamped w request) with
        | Some msg => (Raise (HTTPException 500 msg), w1)
        | None =>
            let inserted_id := render_id (next_id h) in
            let doc := <["_id" := VObjectId inserted_id]> (stamped w request) in
            (Ret {| SaveResultResponse.id := inserted_id; SaveResultResponse.status := "ok" |},
             set_db (Some (add_document "typingresult" doc h)) w1)
        end
    end.
Proof.
  intros Hdb.
  unfold save_result, mbind, M_bind, mret, M_ret, get_db, try_except, create_document,
    raise, datetime_now_utc, stamped.
  rewrite Hdb. cbn. rewrite Hdb.
  destruct (connection_fault h); [reflexivity|].
  by destruct (write_rejection h _).
Qed.

Lemma stored_add_document w h doc n :
  db w = Some h →
  stored (set_db (Some (add_document "typingresult" doc h)) (set_ticks n w))
  = stored w ++ [doc].
Proof.
  intros Hdb. unfold stored. rewrite Hdb. cbn. unfold documents_of at 1. cbn.
  by rewrite lookup_insert_eq.
Qed.

Lemma saved_document_renders w request inserted_id :
  renders true (<["_id" := VObjectId inserted_id]> (stamped w request)) = true.
Proof. reflexivity. Qed.

Lemma saved_document_fields w request inserted_id :
  let doc := <["_id" := VObjectId inserted_id]> (stamped w request) in
  doc !! "wpm" = Some (VFloat (SaveResultRequest.wpm request))
  ∧ doc !! "accuracy" = Some (VFloat (SaveResultRequest.accuracy request))
  ∧ doc !! "mistakes" = Some (VInt (SaveResultRequest.mistakes request))
  ∧ doc !! "duration" = Some (VInt (SaveResultRequest.duration request)).
Proof. repeat split. Qed.

Lemma validate_ignores_created_at payload v :
  validate (<["created_at" := v]> payload) = validate payload.
Proof.
  unfold validate, required, optional.
  by rewrite !lookup_insert_ne.
Qed.

(** C5: the [created_at] of the document a [POST /api/results] persists is
    the server's clock reading at the time of the request, whatever the
    body: a [created_at] in the body changes nothing, a 200 answer goes
    with exactly one new stored document, stamped with that reading, and
    any other answer with no new document. *)
Theorem created_at_is_server_set (w : world) (payload : document) :
  (∀ v, post_api_results (<["created_at" := v]> payload) w = post_api_results payload w)
  ∧ ((status_code (post_api_results payload w).1 = 200
      ∧ ∃ d, stored (post_api_results payload w).2 = stored w ++ [d]
             ∧ d !! "created_at"
               = Some (VDatetime {| instant := clock w (ticks w); tz_aware := true |}))
     ∨ (status_code (post_api_results payload w).1 ≠ 200
        ∧ stored (post_api_results payload w).2 = stored w)).
Proof.
  split.
  - intros v. unfold post_api_results. by rewrite validate_ignores_created_at.
  - unfold post_api_results. destruct (validate payload) as [errors|request]; [by right|].
    unfold respond. destruct (db w) as [h|] eqn:Hdb.
    + rewrite (save_result_run w h request Hdb). cbn.
      destruct (connection_fault h); [by right|].
      destruct (write_rejection h _); [by right|].
      left. split; [done|]. eexists. split; [by apply (stored_add_document w h)|].
      unfold stamped. by simplify_map_eq.
    + unfold save_result, mbind, M_bind, get_db, raise. rewrite Hdb. by right.
Qed.

Lemma validate_inr_fields payload request :
  validate payload = inr request →
  required "wpm" coerce_float payload = inr (SaveResultRequest.wpm request)
  ∧ required "accuracy" coerce_float payload = inr (SaveResultRequest.accuracy request)
  ∧ required "mistakes" coerce_int payload = inr (SaveResultRequest.mistakes request)
  ∧ required "duration" coerce_int payload = inr (SaveResultRequest.duration request).
Proof.
  unfold validate.
  destruct (required "wpm" _ _); [done|].
  destruct (required "accuracy" _ _); [done|].
  destruct (required "mistakes" _ _); [done|].
  destruct (required "duration" _ _); [done|].
  destruct (optional "user_id" _ _); [done|].
  by intros [= <-].
Qed.

Lemma required_inr {A} (coerce : value → option A) payload name v a :
  required name coerce payload = inr a → payload !! name = Some v → coerce v = Some a.
Proof.
  unfold required. intros H Hv. rewrite Hv in H. destruct (coerce v); by simplify_eq.
Qed.

(** C1, as the code has it: with the database configured and accepting the
    write, and every document already stored renderable, a
    [POST /api/results] with a valid payload answers 200 with a non-empty
    [id] and [status] "ok", and a following [GET /api/results] with a limit
    above the number of stored documents answers 200 with a record whose
    [wpm], [accuracy], [mistakes] and [duration] are those of the validated
    payload: a float posted for [wpm] or [accuracy] and an integer posted
    for [mistakes] or [duration] come back exactly. *)
Theorem post_then_list (w : world) (h : database) (payload : document)
    (request : SaveResultRequest.t) (limit : Z) :
  validate payload = inr request →
  db w = Some h →
  connection_fault h = None →
  write_rejection h (stamped w request) = None →
  Forall (λ d, renders true d = true) (stored w) →
  Z.of_nat (length (stored w)) < limit →
  ∃ inserted_id w1 rs w2,
    post_api_results payload w
    = ({| status_code := 200;
          content := Saved {| SaveResultResponse.id := inserted_id;
                              SaveResultResponse.status := "ok" |} |}, w1)
    ∧ inserted_id ≠ ""
    ∧ get_api_results (Some limit) w1
      = ({| status_code := 200; content := Records rs |}, w2)
    ∧ ∃ r, r ∈ rs
        ∧ ResultRecord.wpm r = SaveResultRequest.wpm request
        ∧ ResultRecord.accuracy r = SaveResultRequest.accuracy request
        ∧ ResultRecord.mistakes r = SaveResultRequest.mistakes request
        ∧ ResultRecord.duration r = SaveResultRequest.duration request
        ∧ (∀ f, payload !! "wpm" = Some (VFloat f) → ResultRecord.wpm r = f)
        ∧ (∀ f, payload !! "accuracy" = Some (VFloat f) → ResultRecord.accuracy r = f)
        ∧ (∀ z, payload !! "mistakes" = Some (VInt z) → ResultRecord.mistakes r = z)
        ∧ (∀ z, payload !! "duration" = Some (VInt z) → ResultRecord.duration r = z).
Proof.
  intros Hv Hdb Hconn Hwrite Hall Hlimit.
  destruct (validate_inr_fields payload request Hv) as (V1 & V2 & V3 & V4).
  set (doc := <["_id" := VObjectId (render_id (next_id h))]> (stamped w request)).
  set (h1 := add_document "typingresult" doc h).
  set (w1 := set_db (Some h1) (set_ticks (S (ticks w)) w)).
  assert (Hstored : stored w1 = stored w ++ [doc]) by by apply stored_add_document.
  assert (Hfetched : fetched limit w1 = stored w ++ [doc]).
  { unfold fetched. rewrite Hstored. apply take_ge. rewrite length_app. cbn. lia. }
  destruct (list_results_renders true w1 h1 limit eq_refl Hconn)
    as (rs & rs0 & Hrun & _ & Hperm & _ & Hrend).
  { rewrite Hfetched. apply Forall_app. split; [done|].
    constructor; [apply saved_document_renders|constructor]. }
  destruct (Hrend (length (stored w)) doc) as (r & Hr & H1 & H2 & H3 & H4 & _).
  { rewrite Hfetched. by apply list_lookup_middle. }
  exists (render_id (next_id h)), w1, rs. eexists. split; [|split; [|split]].
  - unfold post_api_results, respond. rewrite Hv, (save_result_run w h request Hdb). cbn.
    by rewrite Hconn, Hwrite.
  - apply render_id_nonempty.
  - unfold get_api_results, respond. cbn. by rewrite Hrun.
  - exists r. split; [rewrite Hperm; by eapply list_elem_of_lookup_2|].
    destruct (saved_document_fields w request (render_id (next_id h))) as (E1 & E2 & E3 & E4).
    unfold field_is in *. fold doc in E1, E2, E3, E4. rewrite E1 in H1. rewrite E2 in H2.
    rewrite E3 in H3. rewrite E4 in H4. cbn in H1, H2, H3, H4. simplify_eq.
    rewrite H1, H2, H3, H4. repeat split.
    + intros f Hf. pose proof (required_inr _ _ _ _ _ V1 Hf) as E. cbn in E. by simplify_eq.
    + intros f Hf. pose proof (required_inr _ _ _ _ _ V2 Hf) as E. cbn in E. by simplify_eq.
    + intros z Hz. pose proof (required_inr _ _ _ _ _ V3 Hz) as E. cbn in E. by simplify_eq.
    + intros z Hz. pose proof (required_inr _ _ _ _ _ V4 Hz) as E. cbn in E. by simplify_eq.
Qed.

End Properties.

(** ** The properties at concrete inputs *)

Lemma Forall_renders_forallb `{Runtime} (a : bool) (l : list document) :
  forallb (renders a) l = true → Forall (λ d, renders a d = true) l.
Proof.
  induction l as [|d l IH]; cbn; [constructor|].
  rewrite andb_true_iff. intros [Hd Hl]. constructor; [done|by apply IH].
Qed.

Lemma pair_eq_fst {A B} (p : A * B) (a : A) : p.1 = a → p = (a, p.2).
Proof. destruct p. cbn. by intros ->. Qed.

(** [post_then_list] on a store that already holds the three legacy
    documents. *)
Lemma post_then_list_witness :
  ∃ inserted_id rs,
    (post_api_results (rt := example_runtime) example_payload
       (example_world (Some (database_with legacy_documents)))).1
    = {| status_code := 200;
         content := Saved {| SaveResultResponse.id := inserted_id;
                             SaveResultResponse.status := "ok" |} |}
    ∧ inserted_id ≠ ""
    ∧ (get_api_results (rt := example_runtime) (Some 4)
         (post_api_results (rt := example_runtime) example_payload
            (example_world (Some (database_with legacy_documents)))).2).1
      = {| status_code := 200; content := Records rs |}
    ∧ ∃ r, r ∈ rs
        ∧ ResultRecord.wpm r = float_85_5
        ∧ ResultRecord.accuracy r = float_97_25
        ∧ ResultRecord.mistakes r = 3
        ∧ ResultRecord.duration r = 60.
Proof.
  destruct (post_then_list (rt := example_runtime)
              (example_world (Some (database_with legacy_documents)))
              (database_with legacy_documents) example_payload example_request 4)
    as (inserted_id & w1 & rs & w2 & Hpost & Hid & Hget & r & Hin & H1 & H2 & H3 & H4 & _).
  - reflexivity.
  - reflexivity.
  - reflexivity.
  - reflexivity.
  - apply Forall_renders_forallb. vm_compute. reflexivity.
  - vm_compute. reflexivity.
  - exists inserted_id, rs. rewrite Hpost. cbn [fst snd]. rewrite Hget.
    split; [reflexivity|]. split; [exact Hid|]. split; [reflexivity|].
    exists r. split; [exact Hin|]. split; [exact H1|]. split; [exact H2|].
    split; [exact H3|exact H4].
Defined.

(** [non_numeric_wpm_rejected] on a body whose [wpm] is the text "fast". *)
Lemma non_numeric_wpm_rejected_witness :
  ∃ errors,
    post_api_results (rt := example_runtime) (<["wpm" := VStr "fast"]> example_payload)
      (example_world (Some example_database))
    = ({| status_code := 422; content := ValidationErrors errors |},
       example_world (Some example_database)).
Proof.
  destruct (non_numeric_wpm_rejected (rt := example_runtime)
              (example_world (Some example_database))
              (<["wpm" := VStr "fast"]> example_payload) (VStr "fast"))
    as (errors & Hpost & _).
  - reflexivity.
  - reflexivity.
  - exists errors. exact Hpost.
Defined.

(** [limit_bounds_records] with [limit=2] on a store of three documents. *)
Lemma limit_bounds_records_witness :
  ∃ rs,
    (get_api_results (rt := example_runtime) (Some 2)
       (example_world (Some (database_with legacy_documents)))).1
    = {| status_code := 200; content := Records rs |}
    ∧ Z.of_nat (length rs) ≤ 2.
Proof.
  eexists. split; [vm_compute; reflexivity|].
  eapply (proj1 (limit_bounds_records (rt := example_runtime)
                   (example_world (Some (database_with legacy_documents))) 2 ltac:(lia))).
  apply pair_eq_fst. vm_compute. reflexivity.
Defined.

(** [list_renders_defaults_sorted] on the three legacy documents, one of
    them with no field at all. *)
Lemma list_renders_defaults_sorted_witness :
  ∃ rs,
    (get_api_results (rt := example_runtime) (Some 50)
       (example_world (Some (database_with legacy_documents)))).1
    = {| status_code := 200; content := Records rs |}
    ∧ Sorted by_created_at rs
    ∧ length rs = 3%nat.
Proof.
  destruct (list_renders_defaults_sorted (rt := example_runtime)
              (example_world (Some (database_with legacy_documents)))
              (database_with legacy_documents) 50 true)
    as (rs & rs0 & w' & Hget & Hsorted & Hperm & Hlen & _).
  - reflexivity.
  - reflexivity.
  - apply Forall_renders_forallb. vm_compute. reflexivity.
  - exists rs. rewrite Hget. split; [reflexivity|]. split; [exact Hsorted|].
    rewrite Hperm, Hlen. reflexivity.
Defined.

(** C4 as stated fails: a stored document whose [wpm] is present and null
    makes the whole fetch answer 500, and no record is returned. *)
Lemma null_field_fails_fetch :
  (get_api_results (rt := example_runtime) None
     (example_world (Some (database_with [null_wpm_document])))).1
  = {| status_code := 500;
       content := Detail (describe (Runtime := example_runtime) (FloatArgument VNone)) |}.
Proof. vm_compute. reflexivity. Qed.

(** The default of a missing [created_at] is aware; next to a stored naive
    datetime the sort raises and the fetch answers 500. *)
Example naive_next_to_missing :
  (get_api_results (rt := example_runtime) None
     (example_world (Some (database_with naive_and_missing_documents)))).1
  = {| status_code := 500;
       content := Detail "can't compare offset-naive and offset-aware datetimes" |}.
Proof. vm_compute. reflexivity. Qed.

(** [unconfigured_storage] in a world with no database handle. *)
Lemma unconfigured_storage_witness :
  get_api_results (rt := example_runtime) None (example_world None)
  = ({| status_code := 500; content := Detail "Database not configured" |},
     example_world None).
Proof.
  destruct (unconfigured_storage (rt := example_runtime) (example_world None))
    as (_ & _ & Hget & _).
  - reflexivity.
  - apply Hget.
Defined.

(** C6 as stated fails twice: without a database handle, a
    [POST /api/results] with an empty body is answered 422, not 500; and
    the [database] text of [GET /test] is "Available but not initialized",
    not the initial "Not Available". *)
Lemma unconfigured_not_as_stated :
  status_code (post_api_results (rt := example_runtime) ∅ (example_world None)).1 = 422
  ∧ ∃ r, content (get_test (rt := example_runtime) (example_world None)).1 = Status r
       ∧ Diagnostics.database r = "⚠️  Available but not initialized"
       ∧ Diagnostics.database r ≠ "❌ Not Available".
Proof.
  split; [reflexivity|]. eexists. split; [reflexivity|]. split; [reflexivity|].
  vm_compute. discriminate.
Qed.

(** [storage_failure_detail] on a database that lost its connection. *)
Lemma storage_failure_detail_witness :
  post_api_results (rt := example_runtime) example_payload
    (example_world (Some disconnected_database))
  = ({| status_code := 500; content := Detail long_message |},
     set_ticks 1 (example_world (Some disconnected_database)))
  ∧ get_api_results (rt := example_runtime) None (example_world (Some disconnected_database))
    = ({| status_code := 500; content := Detail long_message |},
       example_world (Some disconnected_database)).
Proof.
  destruct (storage_failure_detail (rt := example_runtime)
              (example_world (Some disconnected_database)) disconnected_database
              long_message) as (Hpost & Hget).
  - reflexivity.
  - split.
    + apply (Hpost example_payload example_request); [reflexivity|]. left. reflexivity.
    + apply Hget. reflexivity.
Defined.

(** C8 as stated fails: the detail of the 500 answer is the whole 64
    characters of the failure's description, not a truncation of it (the
    diagnostic route cuts at 50). *)
Lemma failure_detail_not_truncated :
  ∃ detail,
    (post_api_results (rt := example_runtime) example_payload
       (example_world (Some disconnected_database))).1
    = {| status_code := 500; content := Detail detail |}
    ∧ (get_api_results (rt := example_runtime) None
         (example_world (Some disconnected_database))).1
      = {| status_code := 500; content := Detail detail |}
    ∧ detail = long_message
    ∧ String.length detail = 64%nat
    ∧ detail ≠ first50 long_message.
Proof.
  exists long_message. split; [reflexivity|]. split; [reflexivity|].
  split; [reflexivity|]. split; [reflexivity|]. vm_compute. discriminate.
Qed.

(** [listed_record_fields] on the three legacy documents. *)
Lemma listed_record_fields_witness :
  ∃ rs,
    (get_api_results (rt := example_runtime) None
       (example_world (Some (database_with legacy_documents)))).1
    = {| status_code := 200; content := Records rs |}
    ∧ length rs = 3%nat
    ∧ Forall (λ r, ResultRecord.model_dump r !! "user_id" = None) rs.
Proof.
  eexists. split; [vm_compute; reflexivity|]. split; [reflexivity|].
  eapply Forall_impl.
  - eapply (listed_record_fields (rt := example_runtime)
              (example_world (Some (database_with legacy_documents))) _ None).
    apply pair_eq_fst. vm_compute. reflexivity.
  - intros r (_ & _ & H). exact H.
Defined.

(** C9 as stated fails: a result posted with a [user_id] is stored with it
    and with its identifier, and comes back from [GET /api/results] without
    either. *)
Lemma listed_record_lacks_id_and_user_id :
  (λ d : document, (d !! "user_id", d !! "_id"))
    <$> stored (post_api_results (rt := example_runtime) alice_payload
                  (example_world (Some example_database))).2
  = [(Some (VStr "alice"), Some (VObjectId "oid0"))]
  ∧ (get_api_results (rt := example_runtime) None
       (post_api_results (rt := example_runtime) alice_payload
          (example_world (Some example_database))).2).1
    = {| status_code := 200; content := Records [example_record] |}
  ∧ ResultRecord.model_dump example_record !! "user_id" = None
  ∧ ResultRecord.model_dump example_record !! "id" = None.
Proof.
  split; [vm_compute; reflexivity|]. split; [vm_compute; reflexivity|].
  split; vm_compute; reflexivity.
Qed.

(** ** Further properties of the handlers *)

Section MoreProperties.
Context {rt : Runtime}.

Lemma advances_refl w : advances w w.
Proof. unfold advances. auto. Qed.

Lemma advances_trans w1 w2 w3 : advances w1 w2 → advances w2 w3 → advances w1 w3.
Proof.
  unfold advances. intros (-> & -> & -> & H1) (-> & -> & -> & H2).
  repeat split; lia.
Qed.

Lemma advances_stored w w' : advances w w' → stored w' = stored w.
Proof. intros (Hdb & _). unfold stored. by rewrite Hdb. Qed.

Lemma normalize_advances d w : advances w (normalize d w).2.
Proof.
  unfold normalize, mbind, M_bind, mret, M_ret, lift, datetime_now_utc.
  destruct (builtin_float (get d "wpm" _)); [|apply advances_refl].
  destruct (builtin_float (get d "accuracy" _)); [|apply advances_refl].
  destruct (builtin_int (get d "mistakes" _)); [|apply advances_refl].
  destruct (builtin_int (get d "duration" _)); [|apply advances_refl].
  destruct (validate_datetime _ _); cbn; unfold advances; cbn; repeat split; lia.
Qed.

Lemma mapM_normalize_advances docs : ∀ w, advances w (mapM normalize docs w).2.
Proof.
  induction docs as [|d docs IH]; intros w; [apply advances_refl|].
  rewrite mapM_normalize_cons. pose proof (normalize_advances d w) as Hd.
  destruct (normalize d w) as [[r|e] w1]; [|exact Hd].
  specialize (IH w1). destruct (mapM normalize docs w1) as [[rs|e] w2];
    exact (advances_trans _ _ _ Hd IH).
Qed.

Lemma list_results_advances limit w : advances w (list_results limit w).2.
Proof.
  destruct (db w) as [h|] eqn:Hdb.
  - rewrite (list_results_run w h limit Hdb).
    destruct (connection_fault h); [apply advances_refl|].
    pose proof (mapM_normalize_advances (fetched limit w) w) as H.
    destruct (mapM normalize _ w) as [[results|e] w1]; [|exact H].
    by destruct (sort_by_created_at results).
  - unfold list_results, mbind, M_bind, get_db, raise. rewrite Hdb. apply advances_refl.
Qed.

Lemma respond_snd {A} (render : A → body) (handler : M A) w :
  (respond render handler w).2 = (handler w).2.
Proof. unfold respond. by destruct (handler w) as [[a|[code detail|msg|b]] w1]. Qed.

Lemma list_is_read_only_aux limit w : advances w (get_api_results limit w).2.
Proof. unfold get_api_results. rewrite respond_snd. apply list_results_advances. Qed.

(** X1: [GET /api/results] only reads: whatever the limit and the outcome,
    the world afterwards has the same database handle, the same stored
    documents and the same environment; only clock readings were taken. *)
Theorem list_is_read_only (w : world) (limit : option Z) :
  advances w (get_api_results limit w).2
  ∧ stored (get_api_results limit w).2 = stored w.
Proof.
  pose proof (list_is_read_only_aux limit w) as H.
  split; [exact H|by apply advances_stored].
Qed.

(** X2: [GET /api/results] answers either 200 with records or 500 with a
    detail text: every exception raised while fetching, normalising or
    sorting is turned into an [HTTPException], none escapes the handler. *)
Theorem list_outcomes (w : world) (limit : option Z) :
  (∃ rs, (get_api_results limit w).1 = {| status_code := 200; content := Records rs |})
  ∨ (∃ detail, (get_api_results limit w).1 = {| status_code := 500; content := Detail detail |}).
Proof.
  unfold get_api_results, respond. destruct (db w) as [h|] eqn:Hdb.
  - rewrite (list_results_run w h _ Hdb).
    destruct (connection_fault h); [right; by eexists|].
    destruct (mapM normalize _ w) as [[results|e] w1]; [|right; by eexists].
    destruct (sort_by_created_at results); [left|right]; by eexists.
  - unfold list_results, mbind, M_bind, get_db, raise. rewrite Hdb. right. by eexists.
Qed.

(** X3: [POST /api/results] answers 200 with an identifier and [status]
    "ok", 422 with the validation problems, or 500 with a detail text; a
    failure of the adapter never escapes the handler as an unhandled
    exception. *)
Theorem save_outcomes (w : world) (payload : document) :
  (∃ inserted_id,
     (post_api_results payload w).1
     = {| status_code := 200;
          content := Saved {| SaveResultResponse.id := inserted_id;
                              SaveResultResponse.status := "ok" |} |})
  ∨ (∃ errors,
     (post_api_results payload w).1 = {| status_code := 422; content := ValidationErrors errors |})
  ∨ (∃ detail,
     (post_api_results payload w).1 = {| status_code := 500; content := Detail detail |}).
Proof.
  unfold post_api_results.
  destruct (validate payload) as [errors|request]; [right; left; by eexists|].
  unfold respond. destruct (db w) as [h|] eqn:Hdb.
  - rewrite (save_result_run w h request Hdb). cbn.
    destruct (connection_fault h); [right; right; by eexists|].
    destruct (write_rejection h _); [right; right|left]; by eexists.
  - unfold save_result, mbind, M_bind, get_db, raise. rewrite Hdb. right; right. by eexists.
Qed.

(** *** When the list route succeeds *)

Lemma coercible_of_get {A} (coerce : value → result A) d key dflt a :
  coerce (get d key dflt) = Ret a → coercible coerce d key = true.
Proof. unfold get, coercible. destruct (d !! key); [by intros ->|done]. Qed.

Lemma normalize_ret_renders d w r w' :
  normalize d w = (Ret r, w') →
  renders (tz_aware (ResultRecord.created_at r)) d = true.
Proof.
  unfold normalize, mbind, M_bind, mret, M_ret, lift, datetime_now_utc.
  destruct (builtin_float (get d "wpm" _)) as [x1|] eqn:E1; [|done].
  destruct (builtin_float (get d "accuracy" _)) as [x2|] eqn:E2; [|done].
  destruct (builtin_int (get d "mistakes" _)) as [x3|] eqn:E3; [|done].
  destruct (builtin_int (get d "duration" _)) as [x4|] eqn:E4; [|done].
  destruct (validate_datetime _ (get d "created_at" _)) as [x5|] eqn:E5; [|done].
  intros [= <- <-]. unfold renders.
  rewrite (coercible_of_get _ _ _ _ _ E1), (coercible_of_get _ _ _ _ _ E2),
    (coercible_of_get _ _ _ _ _ E3), (coercible_of_get _ _ _ _ _ E4). cbn.
  apply bool_decide_eq_true. unfold created_at_awareness, get in *.
  destruct (d !! "created_at") as [v|]; [by rewrite E5|]. cbn in E5. by simplify_eq.
Qed.

Lemma mapM_normalize_ret_renders docs : ∀ w rs w',
  mapM normalize docs w = (Ret rs, w') →
  Forall2 (λ d r, renders (tz_aware (ResultRecord.created_at r)) d = true) docs rs.
Proof.
  induction docs as [|d docs IH]; intros w rs w' H.
  - cbn in H. unfold mret, M_ret in H. simplify_eq. constructor.
  - rewrite mapM_normalize_cons in H.
    destruct (normalize d w) as [[r|e] w1] eqn:Hd; [|done].
    destruct (mapM normalize docs w1) as [[rs1|e] w2] eqn:Hrest; [|done].
    simplify_eq. constructor; [by eapply normalize_ret_renders|by eapply IH].
Qed.

Lemma insert_sorted_ret_head x l l' :
  insert_sorted x l = Ret l' →
  ∀ y, head l = Some y →
    tz_aware (ResultRecord.created_at y) = tz_aware (ResultRecord.created_at x).
Proof.
  destruct l as [|z l]; intros H y Hy; [done|]. cbn in Hy. simplify_eq. cbn in H.
  unfold datetime_lt in H.
  destruct (Bool.eqb _ _) eqn:Heq; [|done]. by apply Bool.eqb_prop in Heq.
Qed.

Lemma sort_by_created_at_ret_uniform l l' :
  sort_by_created_at l = Ret l' → uniform l.
Proof.
  revert l'. induction l as [|x l IH]; intros l' H.
  - intros a b Ha. by apply elem_of_nil in Ha.
  - cbn in H. destruct (sort_by_created_at l) as [s|e] eqn:Hs; [|done]. cbn in H.
    specialize (IH s eq_refl). pose proof (sort_by_created_at_perm _ _ Hs) as Hperm.
    assert (Hx : ∀ y, y ∈ l →
      tz_aware (ResultRecord.created_at y) = tz_aware (ResultRecord.created_at x)).
    { intros y Hy. destruct s as [|z s].
      - apply Permutation_nil in Hperm. subst l. by apply elem_of_nil in Hy.
      - assert (Hz : z ∈ l) by (rewrite <- Hperm; apply list_elem_of_here).
        rewrite (IH y z Hy Hz). by eapply insert_sorted_ret_head. }
    intros a b Ha Hb. apply elem_of_cons in Ha as [->|Ha], Hb as [->|Hb]; auto.
    symmetry. auto.
Qed.

(** X4: [GET /api/results] answers 200 exactly when the database is
    configured and connected and the fetched documents all render with one
    awareness of [created_at]: each present [wpm], [accuracy], [mistakes]
    and [duration] is coercible and each present [created_at] validates.
    One document that does not render fails the whole fetch: there are no
    partial results. *)
Theorem list_succeeds_iff (w : world) (limit : Z) :
  (∃ rs, (get_api_results (Some limit) w).1 = {| status_code := 200; content := Records rs |})
  ↔ (∃ h a, db w = Some h ∧ connection_fault h = None
            ∧ Forall (λ d, renders a d = true) (fetched limit w)).
Proof.
  split.
  - intros [rs H]. unfold get_api_results, respond in H. cbn in H.
    destruct (db w) as [h|] eqn:Hdb.
    + rewrite (list_results_run w h limit Hdb) in H.
      destruct (connection_fault h) eqn:Hconn; [done|].
      destruct (mapM normalize _ w) as [[results|e] w1] eqn:Hloop; [|done].
      destruct (sort_by_created_at results) as [sorted|e] eqn:Hsort; [|done].
      apply mapM_normalize_ret_renders in Hloop.
      apply sort_by_created_at_ret_uniform in Hsort.
      exists h. destruct results as [|r0 results].
      * exists true. split; [done|]. split; [done|].
        apply Forall2_nil_inv_r in Hloop. rewrite Hloop. constructor.
      * exists (tz_aware (ResultRecord.created_at r0)). split; [done|]. split; [done|].
        eapply Forall2_Forall_l; [exact Hloop|]. apply Forall_forall.
        intros r Hr d Hd. rewrite <- (Hsort r r0 Hr (list_elem_of_here _ _)). exact Hd.
    + unfold list_results, mbind, M_bind, get_db, raise in H. by rewrite Hdb in H.
  - intros (h & a & Hdb & Hconn & Hall).
    destruct (list_results_renders a w h limit Hdb Hconn Hall) as (rs & rs0 & Hrun & _).
    exists rs. unfold get_api_results, respond. cbn. by rewrite Hrun.
Qed.

(** *** Order of the records *)

Lemma insert_sorted_first x l :
  Sorted by_created_at (x :: l) → uniform (x :: l) → insert_sorted x l = Ret (x :: l).
Proof.
  intros Hs Hu. destruct l as [|y l]; [done|]. cbn. unfold datetime_lt.
  rewrite (Hu y x) by (rewrite !elem_of_cons; auto). rewrite Bool.eqb_reflx.
  apply Sorted_inv in Hs as [_ Hhd]. apply HdRel_inv in Hhd. unfold by_created_at in Hhd.
  cbn. destruct (_ <? _) eqn:Hlt; [lia|done].
Qed.

Lemma sort_by_created_at_sorted_id l :
  Sorted by_created_at l → uniform l → sort_by_created_at l = Ret l.
Proof.
  induction l as [|x l IH]; intros Hs Hu; [done|]. cbn.
  rewrite IH.
  - cbn. by apply insert_sorted_first.
  - by apply Sorted_inv in Hs as [Hs _].
  - intros a b Ha Hb. apply Hu; by apply elem_of_cons; right.
Qed.

Lemma Forall_awareness_uniform a l : Forall (awareness a) l → uniform l.
Proof.
  rewrite Forall_forall. intros H x y Hx Hy. unfold awareness in H.
  by rewrite (H x Hx), (H y Hy).
Qed.

(** X5: documents fetched in chronological order come back in the order
    they were fetched: when the rendered records are already non-decreasing
    in [created_at] (equal timestamps included), the sort leaves them as
    they are. *)
Theorem chronological_order_kept (w : world) (h : database) (limit : Z) (a : bool) :
  db w = Some h →
  connection_fault h = None →
  Forall (λ d, renders a d = true) (fetched limit w) →
  ∃ rs0,
    length rs0 = length (fetched limit w)
    ∧ (∀ (i : nat) d, fetched limit w !! i = Some d →
         ∃ r, rs0 !! i = Some r ∧ rendering d (clock w (ticks w + i)%nat) r)
    ∧ (Sorted by_created_at rs0 →
       (get_api_results (Some limit) w).1
       = {| status_code := 200; content := Records rs0 |}).
Proof.
  intros Hdb Hconn Hall.
  destruct (mapM_normalize_renders a _ w Hall) as (rs0 & Hloop & Haware).
  exists rs0. destruct (mapM_normalize_ret _ _ _ _ Hloop) as (_ & Hlen & Hrend).
  split; [done|]. split; [done|]. intros Hsorted.
  unfold get_api_results, respond. cbn.
  rewrite (list_results_run w h limit Hdb), Hconn, Hloop.
  rewrite (sort_by_created_at_sorted_id rs0 Hsorted); [done|].
  by eapply Forall_awareness_uniform.
Qed.

(** *** The diagnostic route *)

(** X6: in the [GET /test] response [connection_status] is "Connected"
    exactly when there is a database handle and reading its name did not
    raise, also when listing the collections failed; otherwise it stays
    "Not Connected".  Collection names are only reported as connected. *)
Theorem test_connection_status (w : world) :
  ∃ r : Diagnostics.t,
    get_test w = ({| status_code := 200; content := Status r |}, w)
    ∧ (Diagnostics.connection_status r = "Connected"
       ↔ ∃ h, db w = Some h ∧ ∀ e, name_attr h ≠ AttrRaises e)
    ∧ (Diagnostics.connection_status r = "Connected"
       ∨ Diagnostics.connection_status r = "Not Connected")
    ∧ (Diagnostics.collections r ≠ [] → Diagnostics.connection_status r = "Connected").
Proof.
  unfold get_test, respond, test_database, mbind, M_bind, mret, M_ret, get_db, getenv.
  cbn. destruct (db w) as [h|] eqn:Hdb; cbn.
  - unfold inspect_database.
    destruct (name_attr h) as [|s|e0] eqn:Hname;
      destruct (collection_names h) as [names|e1]; cbn;
      eexists; (split; [reflexivity|]); cbn; (split; [|split]); auto;
      try (split; [intros _; exists h; split; [done|congruence]|done]);
      try (split; [done|intros (h' & [= <-] & Hno); by destruct (Hno e0)]).
    all: by intros Hne.
  - eexists. split; [reflexivity|]. cbn. split; [|split].
    + split; [done|]. by intros (h & ? & _).
    + by right.
    + by intros Hne.
Qed.

Lemma first50_short (s : string) : (char_count s ≤ 50)%nat → first50 s = s.
Proof.
  unfold first50. generalize 50%nat. induction s as [|c s IH]; intros n Hn; cbn in *; [done|].
  destruct (continuation c); [f_equal; by apply IH|].
  destruct n as [|n]; [lia|]. f_equal. apply IH. lia.
Qed.

(** X7: when listing the collections fails with a description of at most
    50 characters, the [database] text of [GET /test] carries that
    description in full; a longer one is cut to its first 50 characters,
    whatever the number of bytes they take. *)
Theorem test_short_failure_in_full (w : world) (h : database) (e : exn) :
  db w = Some h →
  (∀ e', name_attr h ≠ AttrRaises e') →
  collection_names h = Raise e →
  ∃ r : Diagnostics.t,
    get_test w = ({| status_code := 200; content := Status r |}, w)
    ∧ ((char_count (str e) ≤ 50)%nat →
       Diagnostics.database r = "⚠️  Connected but Error: " +:+ str e)
    ∧ Diagnostics.database r = "⚠️  Connected but Error: " +:+ take_chars 50 (str e)
    ∧ (char_count (take_chars 50 (str e)) ≤ 50)%nat.
Proof.
  intros Hdb Hname Hlist.
  unfold get_test, respond, test_database, mbind, M_bind, mret, M_ret, get_db, getenv.
  cbn. rewrite Hdb. unfold inspect_database. rewrite Hlist.
  destruct (name_attr h) as [|s|e0] eqn:Hn; [| |by destruct (Hname e0)]; cbn;
    eexists; (split; [reflexivity|]); cbn;
    (split; [intros Hlen; by rewrite (first50_short _ Hlen)|]);
    (split; [reflexivity|apply first50_length]).
Qed.

(** *** What a save persists *)

(** X8: a [POST /api/results] answered 200 has appended to the store one
    document that holds the validated [wpm], [accuracy], [mistakes] and
    [duration], the [user_id] of the request ([None] when the request has
    none) and the server's [created_at]; the documents stored before are
    untouched. *)
Theorem save_persists_request (w : world) (payload : document)
    (request : SaveResultRequest.t) :
  validate payload = inr request →
  status_code (post_api_results payload w).1 = 200 →
  ∃ d,
    stored (post_api_results payload w).2 = stored w ++ [d]
    ∧ d !! "wpm" = Some (VFloat (SaveResultRequest.wpm request))
    ∧ d !! "accuracy" = Some (VFloat (SaveResultRequest.accuracy request))
    ∧ d !! "mistakes" = Some (VInt (SaveResultRequest.mistakes request))
    ∧ d !! "duration" = Some (VInt (SaveResultRequest.duration request))
    ∧ d !! "user_id" = Some (from_option VStr VNone (SaveResultRequest.user_id request))
    ∧ d !! "created_at"
      = Some (VDatetime {| instant := clock w (ticks w); tz_aware := true |}).
Proof.
  intros Hv. unfold post_api_results. rewrite Hv. unfold respond.
  destruct (db w) as [h|] eqn:Hdb.
  - rewrite (save_result_run w h request Hdb). cbv zeta.
    destruct (connection_fault h); [done|].
    destruct (write_rejection h _); [done|]. intros _.
    eexists. split; [by apply (stored_add_document w h)|].
    destruct (saved_document_fields w request (render_id (next_id h))) as (E1 & E2 & E3 & E4).
    split; [exact E1|]. split; [exact E2|]. split; [exact E3|]. split; [exact E4|].
    split; reflexivity.
  - unfold save_result, mbind, M_bind, get_db, raise. rewrite Hdb. done.
Qed.

(** *** Repeating a fetch *)

Lemma normalize_same_result d w1 w2 :
  is_Some (d !! "created_at") → (normalize d w1).1 = (normalize d w2).1.
Proof.
  intros [v Hv]. unfold normalize, mbind, M_bind, mret, M_ret, lift, datetime_now_utc.
  destruct (builtin_float (get d "wpm" _)); [|done].
  destruct (builtin_float (get d "accuracy" _)); [|done].
  destruct (builtin_int (get d "mistakes" _)); [|done].
  destruct (builtin_int (get d "duration" _)); [|done].
  unfold get. rewrite Hv. by destruct (validate_datetime _ v).
Qed.

Lemma mapM_normalize_same_result docs : ∀ w1 w2,
  Forall (λ d : document, is_Some (d !! "created_at")) docs →
  (mapM normalize docs w1).1 = (mapM normalize docs w2).1.
Proof.
  induction docs as [|d docs IH]; intros w1 w2 Hall; [done|].
  apply Forall_cons in Hall as [Hd Hall]. rewrite !mapM_normalize_cons.
  pose proof (normalize_same_result d w1 w2 Hd) as H.
  destruct (normalize d w1) as [[r1|e1] w1'], (normalize d w2) as [[r2|e2] w2'];
    cbn in H; simplify_eq; [|done].
  specialize (IH w1' w2' Hall).
  destruct (mapM normalize docs w1') as [[rs1|e1] w1''],
    (mapM normalize docs w2') as [[rs2|e2] w2'']; cbn in IH; by simplify_eq.
Qed.

Lemma list_results_same_result limit w1 w2 :
  db w1 = db w2 →
  Forall (λ d : document, is_Some (d !! "created_at")) (fetched limit w1) →
  (list_results limit w1).1 = (list_results limit w2).1.
Proof.
  intros Hdb Hall.
  assert (Hf : fetched limit w2 = fetched limit w1).
  { unfold fetched, stored. by rewrite Hdb. }
  destruct (db w1) as [h|] eqn:Hdb1.
  - rewrite (list_results_run w1 h limit Hdb1), (list_results_run w2 h limit (eq_sym Hdb)).
    destruct (connection_fault h); [done|]. rewrite Hf.
    pose proof (mapM_normalize_same_result _ w1 w2 Hall) as H.
    destruct (mapM normalize _ w1) as [[rs1|e1] w1'],
      (mapM normalize _ w2) as [[rs2|e2] w2']; cbn in H; simplify_eq; [|done].
    by destruct (sort_by_created_at rs2).
  - unfold list_results, mbind, M_bind, get_db, raise. by rewrite Hdb1, <- Hdb.
Qed.

Lemma respond_fst {A} (render : A → body) (handler : M A) w1 w2 :
  (handler w1).1 = (handler w2).1 → (respond render handler w1).1 = (respond render handler w2).1.
Proof.
  unfold respond. destruct (handler w1) as [[a1|e1] w1'], (handler w2) as [[a2|e2] w2'];
    cbn; intros H; simplify_eq; [done|]. by destruct e2.
Qed.

(** X9: when every fetched document has a [created_at], the answer of
    [GET /api/results] does not depend on the clock: asking again returns
    the same status and the same body, records and failures alike. *)
Theorem list_repeatable (w : world) (limit : option Z) :
  Forall (λ d : document, is_Some (d !! "created_at")) (fetched (default 50 limit) w) →
  (get_api_results limit (get_api_results limit w).2).1 = (get_api_results limit w).1.
Proof.
  intros Hall. unfold get_api_results at 1 3. apply respond_fst.
  destruct (list_is_read_only_aux limit w) as (Hdb & _).
  symmetry. apply list_results_same_result; [by rewrite Hdb|done].
Qed.

(** *** Naive next to aware *)

Lemma renders_awareness a b d : renders a d = true → renders b d = true → a = b.
Proof.
  unfold renders. rewrite !andb_true_iff, !bool_decide_eq_true.
  intros (_ & Ha) (_ & Hb). congruence.
Qed.

Lemma mapM_normalize_each docs : ∀ w,
  Forall (λ d, renders true d = true ∨ renders false d = true) docs →
  ∃ rs, mapM normalize docs w = (Ret rs, set_ticks (ticks w + length docs)%nat w).
Proof.
  induction docs as [|d docs IH]; intros w Hall.
  - exists []. cbn. unfold mret, M_ret. by rewrite set_ticks_same.
  - apply Forall_cons in Hall as [Hd Hall].
    assert (∃ r, normalize d w = (Ret r, set_ticks (S (ticks w)) w)) as [r Hr].
    { destruct Hd as [Hd|Hd]; destruct (normalize_renders _ d w Hd) as (r & Hr & _); eauto. }
    destruct (IH (set_ticks (S (ticks w)) w) Hall) as (rs & Hrs).
    exists (r :: rs). by rewrite mapM_normalize_cons, Hr, Hrs, set_ticks_succ.
Qed.

Lemma insert_sorted_raise x l e :
  insert_sorted x l = Raise e → e = BuiltinError DatetimeCompare.
Proof.
  induction l as [|y l IH]; cbn; [done|]. unfold datetime_lt.
  destruct (Bool.eqb _ _); cbn; [|by intros [= <-]].
  destruct (_ <? _); [|done]. destruct (insert_sorted x l); cbn; [done|].
  intros [= <-]. by apply IH.
Qed.

Lemma sort_by_created_at_raise l e :
  sort_by_created_at l = Raise e → e = BuiltinError DatetimeCompare.
Proof.
  induction l as [|x l IH]; cbn; [done|].
  destruct (sort_by_created_at l) as [s|e']; cbn.
  - apply insert_sorted_raise.
  - intros [= <-]. by apply IH.
Qed.

(** X10: when the fetched documents each render but one is rendered with an
    aware [created_at] (a missing one is) and another with a naive one, the
    sort raises and [GET /api/results] answers 500 with the description of
    the comparison error, after one clock reading per fetched document. *)
Theorem mixed_awareness_fails (w : world) (h : database) (limit : Z) (d1 d2 : document) :
  db w = Some h →
  connection_fault h = None →
  Forall (λ d, renders true d = true ∨ renders false d = true) (fetched limit w) →
  d1 ∈ fetched limit w → renders true d1 = true →
  d2 ∈ fetched limit w → renders false d2 = true →
  get_api_results (Some limit) w
  = ({| status_code := 500; content := Detail (describe DatetimeCompare) |},
     set_ticks (ticks w + length (fetched limit w))%nat w).
Proof.
  intros Hdb Hconn Hall Hin1 Hr1 Hin2 Hr2.
  destruct (mapM_normalize_each _ w Hall) as (rs & Hloop).
  pose proof (mapM_normalize_ret_renders _ _ _ _ Hloop) as Hrend.
  unfold get_api_results, respond. cbn.
  rewrite (list_results_run w h limit Hdb), Hconn, Hloop.
  destruct (sort_by_created_at rs) as [sorted|e] eqn:Hsort.
  - exfalso. apply sort_by_created_at_ret_uniform in Hsort.
    apply list_elem_of_lookup in Hin1 as [i1 Hi1], Hin2 as [i2 Hi2].
    destruct (Forall2_lookup_l _ _ _ _ _ Hrend Hi1) as (r1 & Hl1 & Hd1).
    destruct (Forall2_lookup_l _ _ _ _ _ Hrend Hi2) as (r2 & Hl2 & Hd2).
    pose proof (renders_awareness _ _ _ Hd1 Hr1) as E1.
    pose proof (renders_awareness _ _ _ Hd2 Hr2) as E2.
    pose proof (Hsort r1 r2 (list_elem_of_lookup_2 _ _ _ Hl1) (list_elem_of_lookup_2 _ _ _ Hl2)).
    congruence.
  - by rewrite (sort_by_created_at_raise _ _ Hsort).
Qed.

(** X11: the initial [database] text "Not Available" of the diagnostic
    response is never returned: every path through [test_database]
    overwrites it. *)
Theorem test_never_initial_text (w : world) :
  ∃ r : Diagnostics.t,
    get_test w = ({| status_code := 200; content := Status r |}, w)
    ∧ Diagnostics.database r ≠ "❌ Not Available".
Proof.
  unfold get_test, respond, test_database, mbind, M_bind, mret, M_ret, get_db, getenv.
  cbn. destruct (db w) as [h|]; cbn.
  - unfold inspect_database.
    destruct (name_attr h) as [|s|e0]; destruct (collection_names h) as [names|e1]; cbn;
      eexists; (split; [reflexivity|]); cbn; discriminate.
  - eexists. split; [reflexivity|]. cbn. discriminate.
Qed.

End MoreProperties.

(** ** The further properties at concrete inputs *)

Lemma Forall_dated_forallb (l : list document) :
  forallb dated l = true → Forall (λ d : document, is_Some (d !! "created_at")) l.
Proof.
  induction l as [|d l IH]; cbn; [constructor|].
  rewrite andb_true_iff. intros [Hd Hl]. constructor; [|by apply IH].
  unfold dated in Hd. by destruct (d !! "created_at").
Qed.

(** [chronological_order_kept] on two dated documents. *)
Lemma chronological_order_kept_witness :
  ∃ rs0, length rs0 = 2%nat
    ∧ (Sorted by_created_at rs0 →
       (get_api_results (rt := example_runtime) (Some 50)
          (example_world (Some (database_with chronological_documents)))).1
       = {| status_code := 200; content := Records rs0 |}).
Proof.
  destruct (chronological_order_kept (rt := example_runtime)
              (example_world (Some (database_with chronological_documents)))
              (database_with chronological_documents) 50 true)
    as (rs0 & Hlen & _ & Hsorted).
  - reflexivity.
  - reflexivity.
  - apply Forall_renders_forallb. vm_compute. reflexivity.
  - exists rs0. split; [rewrite Hlen; reflexivity|exact Hsorted].
Defined.

(** [test_short_failure_in_full] on a database that refuses the listing. *)
Lemma test_short_failure_in_full_witness :
  ∃ r : Diagnostics.t,
    get_test (rt := example_runtime) (example_world (Some unlistable_database))
    = ({| status_code := 200; content := Status r |}, example_world (Some unlistable_database))
    ∧ Diagnostics.database r
      = "⚠️  Connected but Error: échec : accès refusé à la base de données protégée".
Proof.
  destruct (test_short_failure_in_full (rt := example_runtime)
              (example_world (Some unlistable_database)) unlistable_database
              (AdapterError "échec : accès refusé à la base de données protégée"))
    as (r & Hget & Hshort & _).
  - reflexivity.
  - intros e'. discriminate.
  - reflexivity.
  - exists r. split; [exact Hget|]. apply Hshort. vm_compute. lia.
Defined.

(** [save_persists_request] on a result posted by a named user. *)
Lemma save_persists_request_witness :
  ∃ d,
    stored (post_api_results (rt := example_runtime) alice_payload
              (example_world (Some example_database))).2
    = stored (example_world (Some example_database)) ++ [d]
    ∧ d !! "user_id" = Some (VStr "alice").
Proof.
  destruct (save_persists_request (rt := example_runtime)
              (example_world (Some example_database)) alice_payload alice_request)
    as (d & Hstored & _ & _ & _ & _ & Huser & _).
  - vm_compute. reflexivity.
  - vm_compute. reflexivity.
  - exists d. split; [exact Hstored|exact Huser].
Defined.

(** [list_repeatable] on two dated documents. *)
Lemma list_repeatable_witness :
  (get_api_results (rt := example_runtime) None
     (get_api_results (rt := example_runtime) None
        (example_world (Some (database_with chronological_documents)))).2).1
  = (get_api_results (rt := example_runtime) None
       (example_world (Some (database_with chronological_documents)))).1.
Proof.
  apply (list_repeatable (rt := example_runtime)
           (example_world (Some (database_with chronological_documents))) None).
  apply Forall_dated_forallb. vm_compute. reflexivity.
Defined.

(** [mixed_awareness_fails] on a naive-dated document next to an undated
    one. *)
Lemma mixed_awareness_fails_witness :
  get_api_results (rt := example_runtime) (Some 50)
    (example_world (Some (database_with naive_and_missing_documents)))
  = ({| status_code := 500;
        content := Detail "can't compare offset-naive and offset-aware datetimes" |},
     set_ticks 2 (example_world (Some (database_with naive_and_missing_documents)))).
Proof.
  apply (mixed_awareness_fails (rt := example_runtime)
           (example_world (Some (database_with naive_and_missing_documents)))
           (database_with naive_and_missing_documents) 50
           ∅ {[ "created_at" := VDatetime {| instant := 1600000000000000; tz_aware := false |} ]}).
  - reflexivity.
  - reflexivity.
  - constructor; [right; reflexivity|]. constructor; [left; reflexivity|]. constructor.
  - apply list_elem_of_further, list_elem_of_here.
  - reflexivity.
  - apply list_elem_of_here.
  - reflexivity.
Defined.

(** C1 as stated fails: on a store that holds a document whose [wpm] is
    present and null, a valid payload is saved with 200 and the list fetch
    that follows answers 500. *)
Lemma valid_post_then_failing_list :
  validate (rt := example_runtime) example_payload = inr example_request
  ∧ (post_api_results (rt := example_runtime) example_payload
       (example_world (Some (database_with [null_wpm_document])))).1
    = {| status_code := 200;
         content := Saved {| SaveResultResponse.id := "oid1";
                             SaveResultResponse.status := "ok" |} |}
  ∧ (get_api_results (rt := example_runtime) (Some 50)
       (post_api_results (rt := example_runtime) example_payload
          (example_world (Some (database_with [null_wpm_document])))).2).1
    = {| status_code := 500;
         content := Detail (describe (Runtime := example_runtime) (FloatArgument VNone)) |}.
Proof.
  split; [vm_compute; reflexivity|]. split; vm_compute; reflexivity.
Qed.

(** C10 as stated fails: with [DATABASE_URL] set to the empty text the
    variable is set, and [database_url] reads "Not Set". *)
Lemma empty_variable_reported_not_set :
  environ empty_url_world !! "DATABASE_URL" = Some ""
  ∧ ∃ r, (get_test (rt := example_runtime) empty_url_world).1
         = {| status_code := 200; content := Status r |}
       ∧ Diagnostics.database_url r = Some "❌ Not Set".
Proof.
  split; [reflexivity|]. eexists. split; [vm_compute; reflexivity|]. reflexivity.
Qed.
